(** * rpionewire: DS18S20 / DS18B20 one-wire sensors read through sysfs

    A shallow embedding of [rpionewire.go] and the properties of its
    device discovery ([LoadDevices], [findDevices], [newDS1820], [getID])
    and of its sample reader ([ReadDevices]).

    Conventions of the embedding:
    - a Go [string] or [[]byte] is a [string] (a sequence of 8-bit
      characters); a [uint64] is a [Z] in [0, 2^64); a [float64] is a
      primitive binary64 [float];
    - a [*DS1820] is an optional address into a heap of records, [None]
      being [nil]; dereferencing [nil] panics;
    - the host (sysfs files, the directory listing, [modprobe]) is a
      [World] value, fixed for the duration of one call;
    - an [error] is kept as the constructor call that built it, so that
      [fmt.Errorf] records its format string and its operands. *)

From Stdlib Require Import ZArith String Ascii List Bool Lia Uint63 PrimFloat.
From stdpp Require Import base list strings.

Local Open Scope Z_scope.
Local Open Scope stdpp_scope.

(** ** Errors *)

Inductive error : Type :=
| errorString (text : string)                    (* errors.New *)
| Errorf (format : string) (args : list operand) (* fmt.Errorf *)
| NumError (Func Num : string) (Err : error)     (* *strconv.NumError *)
| hostError (text : string)                      (* os, exec: from the host *)
with operand : Type :=
| opString (s : string)
| opError (e : error)
| opUint8 (n : Z).

Definition io_EOF : error := errorString "EOF".
Definition io_ErrUnexpectedEOF : error := errorString "unexpected EOF".
Definition strconv_ErrSyntax : error := errorString "invalid syntax".
Definition strconv_ErrRange : error := errorString "value out of range".

(** ** The device record and the heap it lives in *)

Record DS1820 : Type := mkDS1820 {
  ID : Z;
  Name : string;
  DeviceType : string;
  LastTemp : float
}.

Definition zeroDS1820 : DS1820 :=
  {| ID := 0; Name := ""; DeviceType := ""; LastTemp := 0%float |}.

Definition set_ID (v : Z) (d : DS1820) : DS1820 :=
  {| ID := v; Name := Name d; DeviceType := DeviceType d; LastTemp := LastTemp d |}.
Definition set_Name (v : string) (d : DS1820) : DS1820 :=
  {| ID := ID d; Name := v; DeviceType := DeviceType d; LastTemp := LastTemp d |}.
Definition set_DeviceType (v : string) (d : DS1820) : DS1820 :=
  {| ID := ID d; Name := Name d; DeviceType := v; LastTemp := LastTemp d |}.
Definition set_LastTemp (v : float) (d : DS1820) : DS1820 :=
  {| ID := ID d; Name := Name d; DeviceType := DeviceType d; LastTemp := v |}.

Definition modelDS18S20 : Z := 0x10.
Definition modelDS18B20 : Z := 0x28.

(** A pointer is [nil] or the index of a heap cell. *)
Definition ptr : Type := option nat.
Abbreviation heap := (list DS1820).

(** A call either returns (with the heap it leaves) or panics. *)
Inductive outcome (A : Type) : Type :=
| Return (a : A) (h : heap)
| Panic.
Arguments Return {A} a h.
Arguments Panic {A}.

Definition M (A : Type) : Type := heap -> outcome A.

Definition ret {A} (a : A) : M A := fun h => Return a h.
Definition bind {A B} (m : M A) (f : A -> M B) : M B :=
  fun h => match m h with
           | Return a h' => f a h'
           | Panic => Panic
           end.
Definition panic {A} : M A := fun _ => Panic.

Notation "'let*' x ':=' m 'in' k" := (bind m (fun x => k))
  (at level 10, x name, m at level 200, k at level 200).
Notation "'do' m 'in' k" := (bind m (fun _ => k))
  (at level 10, m at level 200, k at level 200).

(** [new(DS1820)]: a fresh zeroed cell at the end of the heap. *)
Definition new : M ptr :=
  fun h => Return (Some (length h)) (h ++ [zeroDS1820]).

(** [*p] as an r-value: a nil pointer dereference panics. *)
Definition load (p : ptr) : M DS1820 :=
  fun h => match p with
           | Some a => match h !! a with
                       | Some d => Return d h
                       | None => Panic
                       end
           | None => Panic
           end.

(** [p.field = v]. *)
Definition store (p : ptr) (f : DS1820 -> DS1820) : M unit :=
  fun h => match p with
           | Some a => match h !! a with
                       | Some d => Return tt (<[a := f d]> h)
                       | None => Panic
                       end
           | None => Panic
           end.

(** ** The host *)

Inductive result (A : Type) : Type :=
| Ok (a : A)
| Failed (e : error).
Arguments Ok {A} a.
Arguments Failed {A} e.

Record World : Type := mkWorld {
  (* cmd.Run() of the modprobe command *)
  modprobe : option error;
  (* os.Open("/sys/bus/w1/devices") *)
  open_dir : option error;
  (* dir.Readdirnames(0) *)
  readdirnames : result (list string);
  (* os.OpenFile(path, O_RDONLY...): the whole content, read without error *)
  open_file : string -> result string
}.

(** ** Bytes and [encoding/binary] *)

Definition byte_val (c : ascii) : Z := Z.of_N (N_of_ascii c).

(** [binary.LittleEndian.Uint64] on the first eight bytes. *)
Fixpoint le_uint (n : nat) (s : string) : Z :=
  match n, s with
  | S n', String c s' => byte_val c + 256 * le_uint n' s'
  | _, _ => 0
  end.

(** [binary.Read(f, binary.LittleEndian, &v)] with [v : uint64]:
    [io.ReadFull] of eight bytes, then the decoding. *)
Definition binary_Read_uint64 (content : string) : result Z :=
  if (String.length content =? 0)%nat then Failed io_EOF
  else if (String.length content <? 8)%nat then Failed io_ErrUnexpectedEOF
  else Ok (le_uint 8 content).

(** ** Identity decoding *)

Definition id_path (name : string) : string :=
  "/sys/bus/w1/devices/" +:+ name +:+ "/id".

Definition getID (w : World) (d : ptr) : M (option error) :=
  let* r := load d in
  let fn := id_path (Name r) in
  match open_file w fn with
  | Failed err => ret (Some err)
  | Ok content =>
    match binary_Read_uint64 content with
    | Failed err =>
        ret (Some (Errorf "Error decoding %v device id: %v" [opString fn; opError err]))
    | Ok idFileContent =>
        let devicetype := Z.land idFileContent 0xff in
        let* unrecognized :=
          (if devicetype =? modelDS18B20 then
             do store d (set_DeviceType "DS18B20") in ret None
           else if devicetype =? modelDS18S20 then
             do store d (set_DeviceType "DS18S20") in ret None
           else
             ret (Some (Errorf
               "Error decoding %v device id: Unrecognized one wire family code 0x%x"
               [opString fn; opUint8 devicetype]))) in
        match unrecognized with
        | Some e => ret (Some e)
        | None =>
            do store d (set_ID (Z.shiftr (Z.land idFileContent 0x00ffffffffffff00) 8)) in
            ret None
        end
    end
  end.

(** The decision [getID] takes, without the heap: the id and the type, or
    the error. [getID_decodeIdentity] shows that [getID] computes it. *)
Definition decodeIdentity (w : World) (name : string) : result (Z * string) :=
  let fn := id_path name in
  match open_file w fn with
  | Failed err => Failed err
  | Ok content =>
    match binary_Read_uint64 content with
    | Failed err =>
        Failed (Errorf "Error decoding %v device id: %v" [opString fn; opError err])
    | Ok idFileContent =>
        let id := Z.shiftr (Z.land idFileContent 0x00ffffffffffff00) 8 in
        if Z.land idFileContent 0xff =? modelDS18B20 then Ok (id, "DS18B20")
        else if Z.land idFileContent 0xff =? modelDS18S20 then Ok (id, "DS18S20")
        else Failed (Errorf
          "Error decoding %v device id: Unrecognized one wire family code 0x%x"
          [opString fn; opUint8 (Z.land idFileContent 0xff)])
    end
  end.

Definition newDS1820 (w : World) (name : string) : M (ptr * option error) :=
  let* device := new in
  do store device (set_Name name) in
  let* err := getID w device in
  match err with
  | Some e => ret (None, Some e)
  | None => ret (device, None)
  end.

(** ** Enumeration *)

(** [strings.Contains s substr]. *)
Fixpoint strings_Contains (s substr : string) : bool :=
  String.prefix substr s ||
  match s with
  | String _ s' => strings_Contains s' substr
  | EmptyString => false
  end.

Definition is_bus_master (name : string) : bool :=
  strings_Contains name "w1_bus_master".

(** The loop of [findDevices]: every name that does not contain the
    bus-master marker is appended to [devicelist]. *)
Fixpoint findDevices_loop (names devicelist : list string) : list string :=
  match names with
  | [] => devicelist
  | name :: names' =>
      if negb (strings_Contains name "w1_bus_master")
      then findDevices_loop names' (devicelist ++ [name])
      else findDevices_loop names' devicelist
  end.

Definition findDevices (w : World) : list string * option error :=
  match modprobe w with
  | Some err => ([], Some err)
  | None =>
    match open_dir w with
    | Some err => ([], Some err)
    | None =>
      match readdirnames w with
      | Failed err => ([], Some err)
      | Ok names =>
          if (length names <=? 1)%nat then
            ([], Some (errorString "files in /sys/bus/w1/devies: no devices found"))
          else (findDevices_loop names [], None)
      end
    end
  end.

(** ** Registry construction *)

(** The loop of [LoadDevices], at index [i] with [names] still to do.
    Both results of [newDS1820] are assigned before [err] is tested, so on
    an error [devices[i]] already holds the nil pointer whose [Name] the
    error message then asks for. *)
Fixpoint LoadDevices_loop (w : World) (names : list string) (i : nat)
    (devices : list ptr) : M (list ptr * option error) :=
  match names with
  | [] => ret (devices, None)
  | name :: names' =>
      let* r := newDS1820 w name in
      let devices := <[i := fst r]> devices in
      match snd r with
      | Some err =>
          match devices !! i with
          | Some p =>
              let* dev := load p in
              ret ([], Some (Errorf "Error opening devices %v: %v"
                               [opString (Name dev); opError err]))
          | None => panic
          end
      | None => LoadDevices_loop w names' (S i) devices
      end
  end.

Definition LoadDevices (w : World) : M (list ptr * option error) :=
  match findDevices w with
  | (_, Some err) =>
      ret ([], Some (Errorf "Error finding one wire devices: %v" [opError err]))
  | (names, None) =>
      LoadDevices_loop w names 0 (replicate (length names) None)
  end.

(** ** Regular expressions

    The two patterns of the program use literals, the Perl classes [\w],
    [\s], [\d], the dot, greedy repetition of a one-character class, one
    alternation and one capturing group. The matcher below is the
    backtracking search whose first success Go's [regexp] package returns
    (leftmost-first matching). Every class of the patterns is ASCII and the
    dot excludes only the newline, so matching bytes and matching UTF-8
    runes give the same positions. *)

Definition is_digit (c : ascii) : bool :=
  (48 <=? byte_val c) && (byte_val c <=? 57).

(** [\w] is [[0-9A-Za-z_]]. *)
Definition is_word (c : ascii) : bool :=
  is_digit c
  || ((65 <=? byte_val c) && (byte_val c <=? 90))
  || ((97 <=? byte_val c) && (byte_val c <=? 122))
  || (byte_val c =? 95).

(** [\s] is [[\t\n\f\r ]]. *)
Definition is_space (c : ascii) : bool :=
  (byte_val c =? 9) || (byte_val c =? 10) || (byte_val c =? 12)
  || (byte_val c =? 13) || (byte_val c =? 32).

(** [.] is any character but the newline. *)
Definition is_dot (c : ascii) : bool := negb (byte_val c =? 10).

Inductive regex : Type :=
| Eps
| Lit (c : ascii)
| Cls (p : ascii -> bool)
| Cat (r1 r2 : regex)
| Alt (r1 r2 : regex)
| Star (p : ascii -> bool)   (* x*, greedy, x a one-character class *)
| Group (r : regex).         (* the capturing group *)

(** [x+] is [xx*]. *)
Definition Plus (p : ascii -> bool) : regex := Cat (Cls p) (Star p).

Fixpoint Str (s : string) : regex :=
  match s with
  | EmptyString => Eps
  | String c s' => Cat (Lit c) (Str s')
  end.

(** The text between the start of [s] and its suffix [s']. *)
Definition consumed (s s' : string) : string :=
  String.substring 0 (String.length s - String.length s') s.

Section Matcher.
Context {R : Type}.

(** Greedy repetition: the longest run first, then shorter ones. *)
Fixpoint star_match (p : ascii -> bool) (k : string -> option R)
    (s : string) : option R :=
  match s with
  | String c s' =>
      if p c then
        match star_match p k s' with
        | Some x => Some x
        | None => k s
        end
      else k s
  | EmptyString => k s
  end.

(** [rmatch r s g k]: match [r] at the start of [s], then continue with
    [k] on the rest; [g] is the text of the group so far. *)
Fixpoint rmatch (r : regex) (s : string) (g : option string)
    (k : string -> option string -> option R) : option R :=
  match r with
  | Eps => k s g
  | Lit c =>
      match s with
      | String a s' => if Ascii.eqb a c then k s' g else None
      | EmptyString => None
      end
  | Cls p =>
      match s with
      | String a s' => if p a then k s' g else None
      | EmptyString => None
      end
  | Cat r1 r2 => rmatch r1 s g (fun s1 g1 => rmatch r2 s1 g1 k)
  | Alt r1 r2 =>
      match rmatch r1 s g k with
      | Some x => Some x
      | None => rmatch r2 s g k
      end
  | Star p => star_match p (fun s' => k s' g) s
  | Group r1 => rmatch r1 s g (fun s' _ => k s' (Some (consumed s s')))
  end.
End Matcher.

(** A match anchored at the start of [s]: the rest and the group. *)
Definition match_here (re : regex) (s : string) : option (string * option string) :=
  rmatch re s None (fun rest g => Some (rest, g)).

(** [re.FindStringSubmatch(s)] for a pattern with one group: [None] is the
    nil slice, [Some (m0, m1)] the slice [[m0, m1]]. *)
Fixpoint FindStringSubmatch (re : regex) (s : string) : option (string * string) :=
  match match_here re s with
  | Some (rest, g) => Some (consumed s rest, default "" g)
  | None =>
      match s with
      | String _ s' => FindStringSubmatch re s'
      | EmptyString => None
      end
  end.

(** [crc=\w+\s(YES|NO)] *)
Definition _CrcCheckRegex : regex :=
  Cat (Str "crc=") (Cat (Plus is_word) (Cat (Cls is_space)
    (Group (Alt (Str "YES") (Str "NO"))))).

(** [.*\st=(\d+)] *)
Definition _TestSampleRegex : regex :=
  Cat (Star is_dot) (Cat (Cls is_space) (Cat (Str "t=") (Group (Plus is_digit)))).

(** ** [strconv.ParseInt(s, 10, 64)] and the conversion to [float64] *)

Fixpoint parse_digits (s : string) (acc : Z) : option Z :=
  match s with
  | EmptyString => Some acc
  | String c s' =>
      if is_digit c then parse_digits s' (10 * acc + (byte_val c - 48)) else None
  end.

Definition strconv_ParseInt (s0 : string) : Z * option error :=
  match s0 with
  | EmptyString => (0, Some (NumError "ParseInt" s0 strconv_ErrSyntax))
  | String c s' =>
      let neg := Ascii.eqb c "-" in
      let s := if Ascii.eqb c "+" || neg then s' else s0 in
      match s with
      | EmptyString => (0, Some (NumError "ParseInt" s0 strconv_ErrSyntax))
      | _ =>
        match parse_digits s 0 with
        | None => (0, Some (NumError "ParseInt" s0 strconv_ErrSyntax))
        | Some un =>
            let cutoff := 2 ^ 63 in
            if negb neg && (cutoff <=? un) then
              (cutoff - 1, Some (NumError "ParseInt" s0 strconv_ErrRange))
            else if neg && (cutoff <? un) then
              (- cutoff, Some (NumError "ParseInt" s0 strconv_ErrRange))
            else ((if neg then - un else un), None)
        end
      end
  end.

(** [float64(v)] for an [int64] [v], rounding to nearest even. *)
Definition float64_of_int64 (v : Z) : float :=
  if v =? - 2 ^ 63 then (- 0x1p63)%float
  else if v <? 0 then PrimFloat.opp (PrimFloat.of_uint63 (Uint63.of_Z (- v)))
  else PrimFloat.of_uint63 (Uint63.of_Z v).

(** [float64(v) / 1000] *)
Definition celsius (v : Z) : float :=
  PrimFloat.div (float64_of_int64 v) 1000%float.

(** ** [bufio.Scanner] with [bufio.ScanLines] *)

Definition is_newline (c : ascii) : bool := byte_val c =? 10.

(** The text cut at every newline; a last piece without newline counts
    when it is not empty. *)
Fixpoint raw_lines (s : string) : list string :=
  match s with
  | EmptyString => []
  | String c s' =>
      if is_newline c then "" :: raw_lines s'
      else match raw_lines s' with
           | [] => [String c ""]
           | l :: ls => String c l :: ls
           end
  end.

(** [dropCR]: one trailing carriage return is removed. *)
Fixpoint dropCR (s : string) : string :=
  match s with
  | EmptyString => ""
  | String c s' =>
      match s' with
      | EmptyString => if byte_val c =? 13 then "" else s
      | _ => String c (dropCR s')
      end
  end.

Definition MaxScanTokenSize : Z := 64 * 1024.

(** A line that fills the scanner's buffer before its newline shows up
    ends the scan ([Scan] returns false with [ErrTooLong]). *)
Fixpoint scannable (ls : list string) : list string :=
  match ls with
  | [] => []
  | l :: ls' =>
      if Z.of_nat (String.length l) <? MaxScanTokenSize then l :: scannable ls' else []
  end.

(** The tokens [scanner.Text()] yields while [scanner.Scan()] is true. The
    file is read without I/O errors, so [scanner.Err()] is nil at each of
    them. *)
Definition scanner_tokens (content : string) : list string :=
  dropCR <$> scannable (raw_lines content).

(** ** Reading samples *)

Definition w1_slave_path (name : string) : string :=
  "/sys/bus/w1/devices/" +:+ name +:+ "/w1_slave".

(** The scanning loop of [ReadDevices] for one device; [i] counts the
    lines seen so far. *)
Fixpoint scan_loop (device : ptr) (i : nat) (lines : list string) : M (option error) :=
  match lines with
  | [] => ret None
  | line :: lines' =>
      if (i =? 0)%nat then
        match FindStringSubmatch _CrcCheckRegex line with
        | Some (_, m1) =>
            if negb (String.eqb m1 "YES")
            then ret (Some (Errorf "CRC mismatch on read" []))
            else scan_loop device (S i) lines'
        | None => scan_loop device (S i) lines'
        end
      else
        match FindStringSubmatch _TestSampleRegex line with
        | Some (_, m1) =>
            match strconv_ParseInt m1 with
            | (_, Some err) => ret (Some err)
            | (v, None) =>
                do store device (set_LastTemp (celsius v)) in
                scan_loop device (S i) lines'
            end
        | None => ret (Some (Errorf "EOF without data from w1" []))
        end
  end.

(** The body of the loop over the registry: one device. *)
Definition ReadDevices_body (w : World) (device : ptr) : M (option error) :=
  let* dev := load device in
  match open_file w (w1_slave_path (Name dev)) with
  | Failed err => ret (Some err)
  | Ok content => scan_loop device 0 (scanner_tokens content)
  end.

Fixpoint ReadDevices (w : World) (d : list ptr) : M (option error) :=
  match d with
  | [] => ret None
  | device :: d' =>
      let* err := ReadDevices_body w device in
      match err with
      | Some e => ret (Some e)
      | None => ReadDevices w d'
      end
  end.

(** ** Vocabulary of the statements *)

(** A name whose identity cannot be decoded: [newDS1820] returns the nil
    pointer and an error for it. *)
Definition decoding_fails (w : World) (name : string) : Prop :=
  exists e h', newDS1820 w name [] = Return (None, Some e) h'.

(** The first line passes the CRC gate: the marker is absent, or its
    verdict is YES. *)
Definition crc_passes (line : string) : Prop :=
  match FindStringSubmatch _CrcCheckRegex line with
  | Some (_, m1) => m1 = "YES"
  | None => True
  end.

(** The line matches the sample pattern and its field parses to [v]. *)
Definition line_sample (line : string) (v : Z) : Prop :=
  exists m0 m1,
    FindStringSubmatch _TestSampleRegex line = Some (m0, m1)
    /\ strconv_ParseInt m1 = (v, None).

(** A line after the first on which the call fails with [e]: no match of
    the sample pattern, or a field that [strconv.ParseInt] refuses. *)
Definition line_rejected (line : string) (e : error) : Prop :=
  (FindStringSubmatch _TestSampleRegex line = None
   /\ e = Errorf "EOF without data from w1" [])
  \/ exists m0 m1 v,
       FindStringSubmatch _TestSampleRegex line = Some (m0, m1)
       /\ strconv_ParseInt m1 = (v, Some e).

(** The heap once the samples [vs] have been stored, one after the
    other, in the record at [a]: the last one stays. *)
Definition after_samples (a : nat) (dev : DS1820) (vs : list Z) (h : heap) : heap :=
  match last vs with
  | Some v => <[a := set_LastTemp (celsius v) dev]> h
  | None => h
  end.

(** Two heaps that differ only in the temperatures they hold. *)
Definition same_devices (h h' : heap) : Prop :=
  forall a, (h' !! a = None /\ h !! a = None)
            \/ exists dev t, h !! a = Some dev /\ h' !! a = Some (set_LastTemp t dev).

(** Every character of [s] satisfies [p]. *)
Fixpoint string_forall (p : ascii -> bool) (s : string) : bool :=
  match s with
  | EmptyString => true
  | String c s' => p c && string_forall p s'
  end.

(** [s] starts with a character that satisfies [p]. *)
Definition head_is (p : ascii -> bool) (s : string) : bool :=
  match s with
  | String c _ => p c
  | EmptyString => false
  end.

(** Any character but the equals sign. *)
Definition not_equals_sign (c : ascii) : bool := negb (Ascii.eqb c "=").

(** [s] starts with a white space, [t=] and a digit. *)
Definition sample_here (s : string) : bool :=
  match s with
  | String sp (String t (String e (String d _))) =>
      is_space sp && Ascii.eqb t "t" && Ascii.eqb e "=" && is_digit d
  | _ => false
  end.

(** A white space, [t=] and a digit occur somewhere in [s]. *)
Fixpoint has_sample (s : string) : bool :=
  sample_here s ||
  match s with
  | String _ s' => has_sample s'
  | EmptyString => false
  end.

(** [k] fails on every proper suffix of [s]. *)
Fixpoint later_none {R : Type} (k : string -> option R) (s : string) : Prop :=
  match s with
  | EmptyString => True
  | String _ s' => k s' = None /\ later_none k s'
  end.

(** What follows the leading [.*] of the sample pattern, matched at the
    start of [s]. *)
Definition sample_tail (s : string) : option (string * option string) :=
  rmatch (Cat (Cls is_space) (Cat (Str "t=") (Group (Plus is_digit)))) s None
         (fun rest g => Some (rest, g)).

(** ** Concrete hosts, used to run the program on examples *)

Definition bytes (l : list Z) : string :=
  string_of_list_ascii ((fun z => ascii_of_N (Z.to_N z)) <$> l).

Definition LF : string := bytes [10].

Fixpoint assoc (k : string) (l : list (string * string)) : option string :=
  match l with
  | [] => None
  | (k', v) :: l' => if String.eqb k k' then Some v else assoc k l'
  end.

(** A host where the drivers load, the directory lists [listing] and the
    files are those of [files]. *)
Definition host (listing : list string) (files : list (string * string)) : World :=
  {| modprobe := None;
     open_dir := None;
     readdirnames := Ok listing;
     open_file := fun path =>
       match assoc path files with
       | Some content => Ok content
       | None => Failed (hostError "no such file or directory")
       end |}.

(** The identifier blob 0x00AABBCCDDEE0F28, in file order. *)
Definition blob_example : string :=
  bytes [0x28; 0x0F; 0xEE; 0xDD; 0xCC; 0xBB; 0xAA; 0x00].

Definition sensor (name : string) : DS1820 := set_Name name zeroDS1820.

(** A status file whose verdict is NO. *)
Definition status_crc_NO : string :=
  "50 05 4b 46 7f ff 0c 10 1c : crc=1a NO" +:+ LF
  +:+ "50 05 4b 46 7f ff 0c 10 1c t=25000" +:+ LF.

(** The status file of a healthy sensor. *)
Definition status_good : string :=
  "23 01 4b 46 7f ff 0c 10 45 : crc=1a YES" +:+ LF
  +:+ "23 01 4b 46 7f ff 0c 10 45 t=23562" +:+ LF.

(** A status file with two sample lines and a line without sample. *)
Definition status_three_lines : string :=
  "6a 01 4b 46 7f ff 0c 10 5e : crc=5e YES" +:+ LF
  +:+ "6a 01 4b 46 7f ff 0c 10 5e t=22625" +:+ LF
  +:+ "6b 01 4b 46 7f ff 0c 10 5e t=22687" +:+ LF
  +:+ "end of data" +:+ LF.

(** A status file whose sample field starts its line. *)
Definition status_field_first : string :=
  "23 01 4b 46 7f ff 0c 10 45 : crc=45 YES" +:+ LF +:+ "t=23562" +:+ LF.

(** A status file below the freezing point. *)
Definition status_negative : string :=
  "f8 ff 4b 46 7f ff 0c 10 2c : crc=2c YES" +:+ LF
  +:+ "f8 ff 4b 46 7f ff 0c 10 2c t=-500" +:+ LF.

(** ** Vocabulary of the further properties *)

(** [sub] occurs in [s]. *)
Definition occurs_in (sub s : string) : Prop :=
  exists pre post, s = pre +:+ sub +:+ post.

(** [rec] is the record that [newDS1820] builds for [name]: the id and the
    type that [getID] decodes, and no temperature yet. *)
Definition decodes (w : World) (name : string) (rec : DS1820) : Prop :=
  decodeIdentity w name = Ok (ID rec, DeviceType rec)
  /\ Name rec = name
  /\ LastTemp rec = 0%float.

(** The pointers of a registry built on top of a heap of [n] cells. *)
Definition fresh_registry (n count : nat) : list ptr := Some <$> seq n count.

(** Every pointer of the registry is the address of a cell of the heap. *)
Definition valid_registry (reg : list ptr) (h : heap) : Prop :=
  forall p, p ∈ reg -> exists a, p = Some a /\ (a < length h)%nat.

(** The status file of [dev] reads as the sample [v]: it opens, its first
    line passes the CRC gate, every later line carries a sample, and [v] is
    the sample of the last line. *)
Definition reads_as (w : World) (dev : DS1820) (v : Z) : Prop :=
  exists content l0 good vs,
    open_file w (w1_slave_path (Name dev)) = Ok content
    /\ scanner_tokens content = l0 :: good
    /\ crc_passes l0
    /\ Forall2 line_sample good vs
    /\ last vs = Some v.



(** A status file whose first line holds no CRC marker. *)
Definition status_no_marker : string :=
  "23 01 4b 46 7f ff 0c 10 45" +:+ LF
  +:+ "23 01 4b 46 7f ff 0c 10 45 t=23562" +:+ LF.

(** The carriage return. *)
Definition CR : string := bytes [13].

(** The lines [ls], each followed by [eol]. *)
Fixpoint join_lines (eol : string) (ls : list string) : string :=
  match ls with
  | [] => ""
  | l :: ls' => l +:+ eol +:+ join_lines eol ls'
  end.

(** A line of text: no newline in it, no carriage return at its end, and
    short enough for the scanner's buffer even with a carriage return. *)
Definition plain_line (l : string) : Prop :=
  string_forall is_dot l = true
  /\ dropCR l = l
  /\ Z.of_nat (String.length l) + 1 < MaxScanTokenSize.

(** * Properties *)

(** ** The state monad *)

Lemma bind_Return {A B} (m : M A) (f : A -> M B) h a h' :
  m h = Return a h' -> bind m f h = f a h'.
Proof. intros Hm. unfold bind. now rewrite Hm. Qed.

Lemma load_Some h a d : h !! a = Some d -> load (Some a) h = Return d h.
Proof. intros Hd. unfold load. now rewrite Hd. Qed.

Lemma store_Some h a d f :
  h !! a = Some d -> store (Some a) f h = Return tt (<[a := f d]> h).
Proof. intros Hd. unfold store. now rewrite Hd. Qed.

(** ** Bytes *)

Lemma byte_val_range c : 0 <= byte_val c < 256.
Proof.
  unfold byte_val. pose proof (N_ascii_bounded c) as Hb. lia.
Qed.

Lemma land_low_byte b t : 0 <= b < 256 -> Z.land (b + 256 * t) 0xff = b.
Proof.
  intros Hb. change 0xff with (Z.ones 8).
  rewrite Z.land_ones by lia. change (2 ^ 8) with 256.
  replace (b + 256 * t) with (b + t * 256) by lia.
  rewrite Z.mod_add by lia.
  apply Z.mod_small. lia.
Qed.

Lemma serial_bits b t :
  0 <= b < 256 ->
  Z.shiftr (Z.land (b + 256 * t) 0x00ffffffffffff00) 8 = t mod 2 ^ 48.
Proof.
  intros Hb.
  change 0x00ffffffffffff00 with (Z.shiftl (Z.ones 48) 8).
  rewrite <- (Z.land_ones t 48) by lia.
  apply Z.bits_inj'. intros n Hn.
  rewrite Z.shiftr_spec, !Z.land_spec, Z.shiftl_spec by lia.
  replace (n + 8 - 8) with n by lia. f_equal.
  replace (b + 256 * t) with (b + t * 2 ^ 8) by lia.
  rewrite <- Z.shiftl_mul_pow2 by lia.
  assert (Hlow : Z.testbit (b + Z.shiftl t 8) (n + 8) = Z.testbit t n).
  { rewrite <- (Z.shiftr_spec _ 8 n) by lia.
    rewrite Z.shiftr_div_pow2, Z.shiftl_mul_pow2 by lia.
    rewrite Z.div_add by lia. rewrite Z.div_small by (change (2 ^ 8) with 256; lia).
    reflexivity. }
  exact Hlow.
Qed.

(** ** Strings *)

Lemma app_cons c (s t : string) : String c s +:+ t = String c (s +:+ t).
Proof. reflexivity. Qed.

Lemma app_empty (t : string) : "" +:+ t = t.
Proof. reflexivity. Qed.

Lemma length_app (s t : string) :
  String.length (s +:+ t) = (String.length s + String.length t)%nat.
Proof.
  induction s as [|c s IH]; [reflexivity|].
  rewrite app_cons. cbn [String.length]. now rewrite IH.
Qed.

Lemma substring_app (s t : string) :
  String.substring 0 (String.length s) (s +:+ t) = s.
Proof.
  induction s as [|c s IH].
  - rewrite app_empty. now destruct t.
  - rewrite app_cons. cbn [String.length String.substring]. now rewrite IH.
Qed.

Lemma consumed_app (s t : string) : consumed (s +:+ t) t = s.
Proof.
  unfold consumed. rewrite length_app.
  replace (String.length s + String.length t - String.length t)%nat
    with (String.length s) by lia.
  apply substring_app.
Qed.

Lemma string_forall_app p (s t : string) :
  string_forall p (s +:+ t) = string_forall p s && string_forall p t.
Proof.
  induction s as [|c s IH]; [reflexivity|].
  rewrite app_cons. cbn [string_forall]. now rewrite IH, andb_assoc.
Qed.

(** ** The matcher *)

Section StarFacts.
Context {R : Type} (p : ascii -> bool) (k : string -> option R).

Lemma star_match_skip s : later_none k s -> star_match p k s = k s.
Proof.
  induction s as [|c s IH]; [reflexivity|].
  intros [Hk Hlater]. cbn [star_match].
  destruct (p c); [|reflexivity]. now rewrite (IH Hlater), Hk.
Qed.

(** The repetition gives back as much as is needed to reach the last
    place where the rest of the pattern matches. *)
Lemma star_match_last pre mid x :
  string_forall p pre = true -> k mid = Some x -> later_none k mid ->
  star_match p k (pre +:+ mid) = Some x.
Proof.
  intros Hpre Hk Hlater. induction pre as [|c pre IH].
  - rewrite app_empty, star_match_skip by exact Hlater. exact Hk.
  - cbn [string_forall] in Hpre. apply andb_prop in Hpre as [Hc Hpre].
    rewrite app_cons. cbn [star_match]. now rewrite Hc, (IH Hpre).
Qed.

(** With a continuation that accepts the place after the run, the
    repetition takes the whole run. *)
Lemma star_match_run run tail x :
  string_forall p run = true -> head_is p tail = false -> k tail = Some x ->
  star_match p k (run +:+ tail) = Some x.
Proof.
  intros Hrun Hhead Hk. induction run as [|c run IH].
  - rewrite app_empty. destruct tail as [|c tail]; [exact Hk|].
    cbn [star_match]. cbn [head_is] in Hhead. now rewrite Hhead.
  - cbn [string_forall] in Hrun. apply andb_prop in Hrun as [Hc Hrun].
    rewrite app_cons. cbn [star_match]. now rewrite Hc, (IH Hrun).
Qed.

(** No match at all when [k] fails everywhere. *)
Lemma star_match_none s :
  k s = None -> later_none k s -> star_match p k s = None.
Proof. intros Hk Hlater. now rewrite star_match_skip. Qed.
End StarFacts.

Lemma star_match_some {R : Type} p (k : string -> option R) s :
  k s <> None -> star_match p k s <> None.
Proof.
  intros Hk. destruct s as [|c s]; [exact Hk|]. cbn [star_match].
  destruct (p c); [|exact Hk]. now destruct (star_match p k s).
Qed.

Lemma app_assoc_string (a b c : string) : (a +:+ b) +:+ c = a +:+ (b +:+ c).
Proof.
  induction a as [|x a IH]; [reflexivity|]. rewrite !app_cons. now rewrite IH.
Qed.

Lemma FindStringSubmatch_here re s rest g :
  match_here re s = Some (rest, g) ->
  FindStringSubmatch re s = Some (consumed s rest, default "" g).
Proof. intros Hm. destruct s; cbn [FindStringSubmatch]; now rewrite Hm. Qed.

(** ** The sample pattern *)

Lemma match_here_sample s :
  match_here _TestSampleRegex s = star_match is_dot sample_tail s.
Proof. reflexivity. Qed.

Lemma digit_not_space c : is_digit c = true -> is_space c = false.
Proof.
  unfold is_digit, is_space. intros Hd.
  apply andb_prop in Hd as [Hlo Hhi]. apply Z.leb_le in Hlo, Hhi.
  repeat match goal with
  | |- context [?x =? ?y] => destruct (Z.eqb_spec x y); [lia|]
  end.
  reflexivity.
Qed.

Lemma sample_tail_none s : sample_here s = false -> sample_tail s = None.
Proof.
  unfold sample_tail.
  destruct s as [|sp [|t [|e [|d s]]]]; cbn [sample_here rmatch Str Plus].
  - reflexivity.
  - intros _. now destruct (is_space sp).
  - intros _. destruct (is_space sp); [|reflexivity]. now destruct (Ascii.eqb t "t").
  - intros _. destruct (is_space sp); [|reflexivity].
    destruct (Ascii.eqb t "t"); [|reflexivity]. now destruct (Ascii.eqb e "=").
  - intros Hhere. destruct (is_space sp); [|reflexivity].
    destruct (Ascii.eqb t "t"); [|reflexivity].
    destruct (Ascii.eqb e "="); [|reflexivity].
    cbn [andb] in Hhere. now rewrite Hhere.
Qed.

Lemma sample_tail_some sp ds tail :
  is_space sp = true -> ds <> "" -> string_forall is_digit ds = true ->
  head_is is_digit tail = false ->
  sample_tail (String sp ("t=" +:+ ds +:+ tail)) = Some (tail, Some ds).
Proof.
  intros Hsp Hne Hds Htail. destruct ds as [|d ds]; [contradiction|].
  cbn [string_forall] in Hds. apply andb_prop in Hds as [Hd Hds].
  unfold sample_tail. rewrite !app_cons, app_empty.
  cbn [rmatch Str Plus]. rewrite Hsp. cbn [Ascii.eqb Bool.eqb]. rewrite Hd.
  rewrite (star_match_run is_digit _ ds tail
             (tail, Some (consumed (String d (ds +:+ tail)) tail)) Hds Htail eq_refl).
  now rewrite <- app_cons, consumed_app.
Qed.

Lemma sample_tail_here s : sample_here s = true -> sample_tail s <> None.
Proof.
  unfold sample_tail.
  destruct s as [|sp [|t [|e [|d s]]]]; cbn [sample_here]; try discriminate.
  intros Hhere. apply andb_prop in Hhere as [Hhere Hd].
  apply andb_prop in Hhere as [Hhere He]. apply andb_prop in Hhere as [Hsp Ht].
  cbn [rmatch Str Plus]. rewrite Hsp, Ht, He, Hd.
  apply star_match_some. discriminate.
Qed.

Lemma has_sample_later s :
  has_sample s = false -> sample_tail s = None /\ later_none sample_tail s.
Proof.
  induction s as [|c s IH]; intros Hhas.
  - split; [reflexivity|exact I].
  - cbn [has_sample] in Hhas. apply orb_false_elim in Hhas as [Hhere Hhas].
    destruct (IH Hhas) as [Hk Hlater].
    split; [now apply sample_tail_none|]. split; assumption.
Qed.

Lemma has_sample_digits ds tail :
  string_forall is_digit ds = true -> has_sample tail = false ->
  has_sample (ds +:+ tail) = false.
Proof.
  intros Hds Htail. induction ds as [|d ds IH]; [exact Htail|].
  cbn [string_forall] in Hds. apply andb_prop in Hds as [Hd Hds].
  rewrite app_cons. cbn [has_sample]. rewrite (IH Hds), orb_false_r.
  unfold sample_here. rewrite (digit_not_space d Hd).
  now destruct (ds +:+ tail) as [|? [|? [|? ?]]].
Qed.

(** The field captured is the digit run of the last place where a white
    space, [t=] and a digit occur. *)
Lemma FindStringSubmatch_sample pre sp ds tail :
  string_forall is_dot pre = true ->
  is_space sp = true -> ds <> "" -> string_forall is_digit ds = true ->
  head_is is_digit tail = false -> has_sample tail = false ->
  FindStringSubmatch _TestSampleRegex (pre +:+ String sp ("t=" +:+ ds +:+ tail))
  = Some (pre +:+ String sp ("t=" +:+ ds), ds).
Proof.
  intros Hpre Hsp Hne Hds Hhead Htail.
  assert (Hlater : later_none sample_tail (String sp ("t=" +:+ ds +:+ tail))).
  { apply (has_sample_later (String "t" (String "=" (ds +:+ tail)))).
    cbn [has_sample]. rewrite (has_sample_digits ds tail Hds Htail).
    unfold sample_here.
    destruct (ds +:+ tail) as [|x [|y [|z r]]]; reflexivity. }
  rewrite (FindStringSubmatch_here _ _ tail (Some ds)).
  - cbn [default]. f_equal. f_equal.
    replace (pre +:+ String sp ("t=" +:+ ds +:+ tail))
      with ((pre +:+ String sp ("t=" +:+ ds)) +:+ tail).
    + apply consumed_app.
    + rewrite app_assoc_string. reflexivity.
  - rewrite match_here_sample. apply star_match_last; [exact Hpre| |exact Hlater].
    now apply sample_tail_some.
Qed.

(** The pattern matches exactly the lines in which a white space, [t=]
    and a digit occur. *)
Lemma FindStringSubmatch_sample_None line :
  FindStringSubmatch _TestSampleRegex line = None <-> has_sample line = false.
Proof.
  induction line as [|c line IH].
  - split; reflexivity.
  - cbn [FindStringSubmatch has_sample]. rewrite match_here_sample. split.
    + intros Hfind.
      destruct (star_match is_dot sample_tail (String c line)) as [[rest g]|] eqn:Hstar;
        [discriminate|].
      apply orb_false_intro; [|now apply IH].
      destruct (sample_here (String c line)) eqn:Hhere; [|reflexivity].
      exfalso. apply (star_match_some is_dot sample_tail (String c line)).
      * now apply sample_tail_here.
      * exact Hstar.
    + intros Hhas. apply orb_false_elim in Hhas as [Hhere Hhas].
      destruct (has_sample_later (String c line)) as [Hk Hlater].
      { cbn [has_sample]. now rewrite Hhere, Hhas. }
      rewrite (star_match_none is_dot sample_tail _ Hk Hlater). now apply IH.
Qed.

(** ** What the patterns capture *)

Lemma star_match_inv {R : Type} p (k : string -> option R) s r :
  star_match p k s = Some r ->
  exists run s', s = run +:+ s' /\ string_forall p run = true /\ k s' = Some r.
Proof.
  induction s as [|c s IH]; cbn [star_match]; intros Hm.
  - now exists "", "".
  - destruct (p c) eqn:Hc; [|now exists "", (String c s)].
    destruct (star_match p k s) as [x|] eqn:Hs; [|now exists "", (String c s)].
    injection Hm as ->. destruct (IH eq_refl) as (run & s' & -> & Hrun & Hk).
    exists (String c run), s'. rewrite app_cons. cbn [string_forall].
    now rewrite Hc, Hrun.
Qed.

(** A match goes through its continuation. *)
Lemma rmatch_inv {R : Type} re :
  forall s g (k : string -> option string -> option R) r,
    rmatch re s g k = Some r -> exists s' g', k s' g' = Some r.
Proof.
  induction re as [|c|p|r1 IH1 r2 IH2|r1 IH1 r2 IH2|p|r1 IH1];
    intros s g k r; cbn [rmatch]; intros Hm.
  - now exists s, g.
  - destruct s as [|a s]; [discriminate|].
    destruct (Ascii.eqb a c); [now exists s, g|discriminate].
  - destruct s as [|a s]; [discriminate|].
    destruct (p a); [now exists s, g|discriminate].
  - destruct (IH1 _ _ _ _ Hm) as (s1 & g1 & Hm2). exact (IH2 _ _ _ _ Hm2).
  - destruct (rmatch r1 s g k) as [x|] eqn:H1.
    + injection Hm as ->. exact (IH1 _ _ _ _ H1).
    + exact (IH2 _ _ _ _ Hm).
  - destruct (star_match_inv _ _ _ _ Hm) as (run & s' & _ & _ & Hk). now exists s', g.
  - destruct (IH1 _ _ _ _ Hm) as (s' & g' & Hk). now exists s', (Some (consumed s s')).
Qed.

Lemma rmatch_Str {R : Type} lit :
  forall s g (k : string -> option string -> option R) r,
    rmatch (Str lit) s g k = Some r ->
    exists s', s = lit +:+ s' /\ k s' g = Some r.
Proof.
  induction lit as [|c lit IH]; intros s g k r; cbn [Str rmatch]; intros Hm.
  - now exists s.
  - destruct s as [|a s]; [discriminate|].
    destruct (Ascii.eqb_spec a c) as [->|_]; [|discriminate].
    destruct (IH _ _ _ _ Hm) as (s' & -> & Hk). now exists s'.
Qed.

Lemma rmatch_Cat_inv {R : Type} r1 r2 s g (k : string -> option string -> option R) r :
  rmatch (Cat r1 r2) s g k = Some r -> exists s1 g1, rmatch r2 s1 g1 k = Some r.
Proof. cbn [rmatch]. apply rmatch_inv. Qed.

Lemma match_here_crc_verdict s rest g :
  match_here _CrcCheckRegex s = Some (rest, g) -> g = Some "YES" \/ g = Some "NO".
Proof.
  unfold match_here, _CrcCheckRegex. intros Hm.
  apply rmatch_Cat_inv in Hm as (s1 & g1 & Hm).
  apply rmatch_Cat_inv in Hm as (s2 & g2 & Hm).
  apply rmatch_Cat_inv in Hm as (s3 & g3 & Hm).
  cbn [rmatch] in Hm.
  destruct (rmatch (Str "YES") s3 g3
              (fun s' _ => Some (s', Some (consumed s3 s')))) as [x|] eqn:Hyes.
  - injection Hm as ->.
    apply rmatch_Str in Hyes as (s' & -> & Hk). injection Hk as <- <-.
    left. now rewrite consumed_app.
  - apply rmatch_Str in Hm as (s' & -> & Hk). injection Hk as <- <-.
    right. now rewrite consumed_app.
Qed.

(** The verdict that the CRC pattern captures is YES or NO. *)
Lemma FindStringSubmatch_crc_verdict line m0 m1 :
  FindStringSubmatch _CrcCheckRegex line = Some (m0, m1) ->
  m1 = "YES" \/ m1 = "NO".
Proof.
  induction line as [|c line IH]; cbn [FindStringSubmatch].
  - destruct (match_here _CrcCheckRegex "") as [[rest g]|] eqn:Hm; [|discriminate].
    intros Heq. injection Heq as _ <-.
    destruct (match_here_crc_verdict _ _ _ Hm) as [->| ->]; [now left|now right].
  - destruct (match_here _CrcCheckRegex (String c line)) as [[rest g]|] eqn:Hm;
      [|exact IH].
    intros Heq. injection Heq as _ <-.
    destruct (match_here_crc_verdict _ _ _ Hm) as [->| ->]; [now left|now right].
Qed.

Lemma sample_tail_digits s rest g :
  sample_tail s = Some (rest, g) ->
  exists ds, g = Some ds /\ ds <> "" /\ string_forall is_digit ds = true.
Proof.
  unfold sample_tail. intros Hm.
  apply rmatch_Cat_inv in Hm as (s1 & g1 & Hm).
  apply rmatch_Cat_inv in Hm as (s2 & g2 & Hm).
  cbn [Plus rmatch] in Hm.
  destruct s2 as [|d s2]; [discriminate|].
  destruct (is_digit d) eqn:Hd; [|discriminate].
  apply star_match_inv in Hm as (run & s' & -> & Hrun & Hk).
  injection Hk as <- <-. exists (String d run).
  rewrite <- app_cons, consumed_app. cbn [string_forall]. rewrite Hd, Hrun.
  repeat split. discriminate.
Qed.

(** The field that the sample pattern captures is a run of digits, not
    empty. *)
Lemma FindStringSubmatch_sample_digits line m0 m1 :
  FindStringSubmatch _TestSampleRegex line = Some (m0, m1) ->
  m1 <> "" /\ string_forall is_digit m1 = true.
Proof.
  assert (Hhere : forall s rest g,
            match_here _TestSampleRegex s = Some (rest, g) ->
            default "" g <> "" /\ string_forall is_digit (default "" g) = true).
  { intros s rest g Hm. rewrite match_here_sample in Hm.
    apply star_match_inv in Hm as (run & s' & _ & _ & Hk).
    apply sample_tail_digits in Hk as (ds & -> & Hne & Hds). now split. }
  induction line as [|c line IH]; cbn [FindStringSubmatch].
  - destruct (match_here _TestSampleRegex "") as [[rest g]|] eqn:Hm; [|discriminate].
    intros Heq. injection Heq as _ <-. exact (Hhere _ _ _ Hm).
  - destruct (match_here _TestSampleRegex (String c line)) as [[rest g]|] eqn:Hm;
      [|exact IH].
    intros Heq. injection Heq as _ <-. exact (Hhere _ _ _ Hm).
Qed.

Lemma parse_digits_digits s :
  string_forall is_digit s = true ->
  forall acc, 0 <= acc -> exists un, parse_digits s acc = Some un /\ 0 <= un.
Proof.
  induction s as [|c s IH]; intros Hs acc Hacc.
  - now exists acc.
  - cbn [string_forall] in Hs. apply andb_prop in Hs as [Hc Hs].
    cbn [parse_digits]. rewrite Hc. apply (IH Hs).
    unfold is_digit in Hc. apply andb_prop in Hc as [Hlo _].
    apply Z.leb_le in Hlo. lia.
Qed.

(** On a run of digits [strconv.ParseInt] gives a value of [0, 2^63), or
    fails because the number is out of range. *)
Lemma strconv_ParseInt_digits s :
  s <> "" -> string_forall is_digit s = true ->
  (exists v, strconv_ParseInt s = (v, None) /\ 0 <= v < 2 ^ 63)
  \/ strconv_ParseInt s =
       (2 ^ 63 - 1, Some (NumError "ParseInt" s strconv_ErrRange)).
Proof.
  intros Hne Hs. destruct s as [|c s]; [contradiction|].
  assert (Hc : is_digit c = true).
  { cbn [string_forall] in Hs. now apply andb_prop in Hs as [Hc _]. }
  assert (Hminus : Ascii.eqb c "-" = false).
  { destruct (Ascii.eqb_spec c "-") as [->|_]; [discriminate|reflexivity]. }
  assert (Hplus : Ascii.eqb c "+" = false).
  { destruct (Ascii.eqb_spec c "+") as [->|_]; [discriminate|reflexivity]. }
  destruct (parse_digits_digits _ Hs 0 ltac:(lia)) as (un & Hun & Hpos).
  unfold strconv_ParseInt. rewrite Hminus, Hplus. cbn [orb negb andb].
  rewrite Hun. destruct (Z.leb_spec (2 ^ 63) un) as [Hbig|Hsmall].
  - now right.
  - left. exists un. split; [reflexivity|lia].
Qed.

(** ** The CRC pattern *)

Lemma space_not_word c : is_space c = true -> is_word c = false.
Proof.
  unfold is_space, is_word, is_digit. intros Hsp.
  repeat match type of Hsp with
  | (_ || _) = true => apply orb_prop in Hsp as [Hsp|Hsp]
  end;
  apply Z.eqb_eq in Hsp; rewrite Hsp; reflexivity.
Qed.

(** The marker matched at the start of a text. *)
Lemma match_here_crc w sp verdict tail :
  w <> "" -> string_forall is_word w = true -> is_space sp = true ->
  verdict = "YES" \/ verdict = "NO" ->
  match_here _CrcCheckRegex ("crc=" +:+ w +:+ String sp (verdict +:+ tail))
  = Some (tail, Some verdict).
Proof.
  intros Hne Hw Hsp Hverdict. destruct w as [|c w]; [contradiction|].
  cbn [string_forall] in Hw. apply andb_prop in Hw as [Hc Hw].
  unfold match_here, _CrcCheckRegex. rewrite !app_cons, app_empty.
  cbn [rmatch Str Plus]. cbn [Ascii.eqb Bool.eqb]. rewrite Hc.
  apply (star_match_run is_word _ w (String sp (verdict +:+ tail))); [exact Hw| |].
  - cbn [head_is]. now apply space_not_word.
  - rewrite Hsp. destruct Hverdict as [-> | ->].
    + rewrite !app_cons, app_empty. cbn [Ascii.eqb Bool.eqb].
      do 2 f_equal. f_equal. apply (consumed_app "YES" tail).
    + rewrite !app_cons, app_empty. cbn [Ascii.eqb Bool.eqb].
      do 2 f_equal. f_equal. apply (consumed_app "NO" tail).
Qed.

(** No marker starts where the fourth character is not the equals sign. *)
Lemma match_here_crc_fourth s :
  match s with
  | String _ (String _ (String _ (String e _))) => Ascii.eqb e "=" = false
  | _ => True
  end ->
  match_here _CrcCheckRegex s = None.
Proof.
  unfold match_here, _CrcCheckRegex.
  destruct s as [|a [|b [|c [|e s]]]]; cbn [rmatch Str]; intros He.
  - reflexivity.
  - now destruct (Ascii.eqb a "c").
  - destruct (Ascii.eqb a "c"); [|reflexivity]. now destruct (Ascii.eqb b "r").
  - destruct (Ascii.eqb a "c"); [|reflexivity].
    destruct (Ascii.eqb b "r"); [|reflexivity]. now destruct (Ascii.eqb c "c").
  - destruct (Ascii.eqb a "c"); [|reflexivity].
    destruct (Ascii.eqb b "r"); [|reflexivity].
    destruct (Ascii.eqb c "c"); [|reflexivity]. now rewrite He.
Qed.

(** In a line without an equals sign before its marker, as the sensor
    driver writes it, the marker found is that one. *)
Lemma FindStringSubmatch_crc pre w sp verdict tail :
  string_forall not_equals_sign pre = true ->
  w <> "" -> string_forall is_word w = true -> is_space sp = true ->
  verdict = "YES" \/ verdict = "NO" ->
  FindStringSubmatch _CrcCheckRegex
    (pre +:+ "crc=" +:+ w +:+ String sp (verdict +:+ tail))
  = Some ("crc=" +:+ w +:+ String sp verdict, verdict).
Proof.
  intros Hpre Hne Hw Hsp Hverdict.
  induction pre as [|x pre IH].
  - rewrite app_empty.
    rewrite (FindStringSubmatch_here _ _ tail (Some verdict))
      by (now apply match_here_crc).
    cbn [default]. do 2 f_equal.
    replace ("crc=" +:+ w +:+ String sp (verdict +:+ tail))
      with (("crc=" +:+ w +:+ String sp verdict) +:+ tail).
    + apply consumed_app.
    + rewrite !app_assoc_string, app_cons. reflexivity.
  - cbn [string_forall] in Hpre. apply andb_prop in Hpre as [Hx Hpre].
    rewrite app_cons. cbn [FindStringSubmatch].
    rewrite match_here_crc_fourth; [exact (IH Hpre)|].
    destruct pre as [|y [|z [|u pre]]]; rewrite ?app_cons, ?app_empty;
      try reflexivity.
    cbn [string_forall] in Hpre.
    apply andb_prop in Hpre as [_ Hpre]. apply andb_prop in Hpre as [_ Hpre].
    apply andb_prop in Hpre as [Hu _].
    unfold not_equals_sign in Hu. now apply negb_true_iff in Hu.
Qed.

(** At the gate, a verdict other than YES is the verdict NO. *)
Lemma crc_verdict_not_YES line m0 m1 :
  FindStringSubmatch _CrcCheckRegex line = Some (m0, m1) ->
  m1 <> "YES" <-> m1 = "NO".
Proof.
  intros Hm. destruct (FindStringSubmatch_crc_verdict line m0 m1 Hm) as [-> | ->].
  - split; [contradiction|discriminate].
  - split; [reflexivity|discriminate].
Qed.

(** ** The scanner *)

Lemma raw_lines_no_newline s :
  Forall (fun l => string_forall is_dot l = true) (raw_lines s).
Proof.
  induction s as [|c s IH]; [constructor|].
  cbn [raw_lines]. destruct (is_newline c) eqn:Hnl.
  - constructor; [reflexivity|exact IH].
  - assert (Hc : is_dot c = true) by (unfold is_dot; fold (is_newline c); now rewrite Hnl).
    destruct (raw_lines s) as [|l ls].
    + constructor; [|constructor]. cbn [string_forall]. now rewrite Hc.
    + apply Forall_cons in IH as [Hl Hls]. constructor; [|exact Hls].
      cbn [string_forall]. now rewrite Hc, Hl.
Qed.

Lemma scannable_Forall (P : string -> Prop) ls :
  Forall P ls -> Forall P (scannable ls).
Proof.
  induction 1 as [|l ls Hl _ IH]; [constructor|].
  cbn [scannable]. destruct (Z.of_nat (String.length l) <? MaxScanTokenSize);
    [now constructor|constructor].
Qed.

Lemma dropCR_forall p s : string_forall p s = true -> string_forall p (dropCR s) = true.
Proof.
  induction s as [|c s IH]; [reflexivity|].
  intros Hs. cbn [string_forall] in Hs. apply andb_prop in Hs as [Hc Hs].
  cbn [dropCR]. destruct s as [|c' s'].
  - destruct (byte_val c =? 13); [reflexivity|]. cbn [string_forall]. now rewrite Hc.
  - cbn [string_forall] in *. now rewrite Hc, (IH Hs).
Qed.

(** No line the scanner yields holds a newline. *)
Lemma scanner_tokens_no_newline content line :
  line ∈ scanner_tokens content -> string_forall is_dot line = true.
Proof.
  unfold scanner_tokens. intros Hin.
  apply list_elem_of_fmap in Hin as (l & -> & Hl). apply dropCR_forall.
  pose proof (scannable_Forall _ _ (raw_lines_no_newline content)) as Hall.
  rewrite Forall_forall in Hall. now apply Hall.
Qed.

(** ** Identity decoding *)

Lemma binary_Read_uint64_full content :
  (8 <= String.length content)%nat ->
  binary_Read_uint64 content = Ok (le_uint 8 content).
Proof.
  intros Hlen. unfold binary_Read_uint64.
  destruct (Nat.eqb_spec (String.length content) 0) as [H0|_]; [lia|].
  destruct (Nat.ltb_spec (String.length content) 8) as [H8|_]; [lia|].
  reflexivity.
Qed.

(** What [getID] does once the identifier file has given its value. *)
Lemma getID_value w h a dev content value :
  h !! a = Some dev ->
  open_file w (id_path (Name dev)) = Ok content ->
  binary_Read_uint64 content = Ok value ->
  getID w (Some a) h =
    let id := Z.shiftr (Z.land value 0x00ffffffffffff00) 8 in
    if Z.land value 0xff =? 0x28 then
      Return None (<[a := set_ID id (set_DeviceType "DS18B20" dev)]> h)
    else if Z.land value 0xff =? 0x10 then
      Return None (<[a := set_ID id (set_DeviceType "DS18S20" dev)]> h)
    else
      Return (Some (Errorf
        "Error decoding %v device id: Unrecognized one wire family code 0x%x"
        [opString (id_path (Name dev)); opUint8 (Z.land value 0xff)])) h.
Proof.
  intros Hdev Hopen Hread.
  assert (Hlt : (a < length h)%nat) by (eapply lookup_lt_Some; eassumption).
  unfold getID. rewrite (bind_Return _ _ _ _ _ (load_Some _ _ _ Hdev)).
  rewrite Hopen, Hread. cbv zeta. unfold modelDS18B20, modelDS18S20.
  destruct (Z.land value 0xff =? 0x28) eqn:HB.
  - unfold bind at 1. unfold bind at 1.
    rewrite (store_Some _ _ _ _ Hdev). unfold ret at 1.
    unfold bind. erewrite store_Some by (apply list_lookup_insert_eq; exact Hlt).
    rewrite list_insert_insert_eq. reflexivity.
  - destruct (Z.land value 0xff =? 0x10) eqn:HS.
    + unfold bind at 1. unfold bind at 1.
      rewrite (store_Some _ _ _ _ Hdev). unfold ret at 1.
      unfold bind. erewrite store_Some by (apply list_lookup_insert_eq; exact Hlt).
      rewrite list_insert_insert_eq. reflexivity.
    + reflexivity.
Qed.

(** C4. [getID] reads the identifier blob as a little-endian 64-bit value.
    A low byte of 0x28 makes the device a DS18B20, 0x10 a DS18S20, and
    every other low byte fails with the unrecognized-family-code error; the
    id stored is [(value & 0x00FFFFFFFFFFFF00) >> 8], a number of 48 bits.
    For the value 0x00AABBCCDDEE0F28 the type is DS18B20 and the id
    0xAABBCCDDEE0F. *)
Theorem getID_decodes (w : World) (h : heap) (a : nat) (dev : DS1820)
    (c0 c1 c2 c3 c4 c5 c6 c7 : ascii) (tail : string) :
  h !! a = Some dev ->
  open_file w (id_path (Name dev)) =
    Ok (String c0 (String c1 (String c2 (String c3
       (String c4 (String c5 (String c6 (String c7 tail)))))))) ->
  let value :=
    byte_val c0 + 2 ^ 8 * byte_val c1 + 2 ^ 16 * byte_val c2
    + 2 ^ 24 * byte_val c3 + 2 ^ 32 * byte_val c4 + 2 ^ 40 * byte_val c5
    + 2 ^ 48 * byte_val c6 + 2 ^ 56 * byte_val c7 in
  let family := Z.land value 0xff in
  let id := Z.shiftr (Z.land value 0x00ffffffffffff00) 8 in
  (family = 0x28 ->
     getID w (Some a) h =
       Return None (<[a := set_ID id (set_DeviceType "DS18B20" dev)]> h))
  /\ (family = 0x10 ->
     getID w (Some a) h =
       Return None (<[a := set_ID id (set_DeviceType "DS18S20" dev)]> h))
  /\ (family <> 0x28 -> family <> 0x10 ->
     getID w (Some a) h =
       Return (Some (Errorf
         "Error decoding %v device id: Unrecognized one wire family code 0x%x"
         [opString (id_path (Name dev)); opUint8 family])) h)
  /\ family = byte_val c0
  /\ 0 <= id < 2 ^ 48
  /\ (value = 0x00AABBCCDDEE0F28 -> family = 0x28 /\ id = 0xAABBCCDDEE0F).
Proof.
  intros Hdev Hopen value family id.
  assert (Hread : binary_Read_uint64
            (String c0 (String c1 (String c2 (String c3
              (String c4 (String c5 (String c6 (String c7 tail))))))))
          = Ok value).
  { rewrite binary_Read_uint64_full by (cbn [String.length]; lia).
    f_equal. unfold value. cbn [le_uint]. lia. }
  pose proof (getID_value w h a dev _ value Hdev Hopen Hread) as Hget.
  cbv zeta in Hget. fold family id in Hget.
  assert (Hsplit : value = byte_val c0 + 256 *
             (byte_val c1 + 2 ^ 8 * byte_val c2
              + 2 ^ 16 * byte_val c3 + 2 ^ 24 * byte_val c4 + 2 ^ 32 * byte_val c5
              + 2 ^ 40 * byte_val c6 + 2 ^ 48 * byte_val c7))
    by (unfold value; lia).
  pose proof (byte_val_range c0) as H0.
  split; [|split; [|split; [|split; [|split]]]].
  - intros Hf. rewrite Hget, Hf. reflexivity.
  - intros Hf. rewrite Hget, Hf. reflexivity.
  - intros HB HS. rewrite Hget.
    destruct (Z.eqb_spec family 0x28) as [?|_]; [contradiction|].
    destruct (Z.eqb_spec family 0x10) as [?|_]; [contradiction|].
    reflexivity.
  - unfold family. rewrite Hsplit. apply land_low_byte. exact H0.
  - unfold id. rewrite Hsplit, (serial_bits _ _ H0).
    apply Z.mod_pos_bound. lia.
  - intros Hv. unfold family, id. rewrite Hv. split; reflexivity.
Qed.

Lemma getID_decodes_witness :
  getID (host [] [(id_path "28-0000aabbcc", blob_example)]) (Some 0%nat)
        [sensor "28-0000aabbcc"]
  = Return None [{| ID := 0xAABBCCDDEE0F; Name := "28-0000aabbcc";
                    DeviceType := "DS18B20"; LastTemp := 0%float |}].
Proof.
  pose proof (getID_decodes (host [] [(id_path "28-0000aabbcc", blob_example)])
                [sensor "28-0000aabbcc"] 0 (sensor "28-0000aabbcc")
                (ascii_of_nat 0x28) (ascii_of_nat 0x0F) (ascii_of_nat 0xEE)
                (ascii_of_nat 0xDD) (ascii_of_nat 0xCC) (ascii_of_nat 0xBB)
                (ascii_of_nat 0xAA) (ascii_of_nat 0x00) ""
                eq_refl eq_refl) as [HB _].
  rewrite HB by reflexivity. reflexivity.
Defined.

(** ** Enumeration *)

Lemma findDevices_loop_filter names acc :
  findDevices_loop names acc = acc ++ filter (fun n => negb (is_bus_master n)) names.
Proof.
  revert acc. induction names as [|n names IH]; intros acc; cbn [findDevices_loop].
  - now rewrite app_nil_r.
  - fold (is_bus_master n). rewrite filter_cons.
    destruct (is_bus_master n); cbn [negb].
    + rewrite decide_False by (intros []). apply IH.
    + rewrite decide_True by exact I. rewrite IH, <- app_assoc. reflexivity.
Qed.

(** What [findDevices] returns once the host has produced a listing. *)
Lemma findDevices_listing w names :
  modprobe w = None -> open_dir w = None -> readdirnames w = Ok names ->
  findDevices w =
    if (length names <=? 1)%nat
    then ([], Some (errorString "files in /sys/bus/w1/devies: no devices found"))
    else (filter (fun n => negb (is_bus_master n)) names, None).
Proof.
  intros Hm Ho Hr. unfold findDevices. rewrite Hm, Ho, Hr.
  destruct (length names <=? 1)%nat; [reflexivity|].
  now rewrite findDevices_loop_filter.
Qed.

(** C9. A raw listing of one entry or none makes [findDevices] fail with
    the no-devices-found error, also when the single entry is a real
    device. *)
Theorem findDevices_short_listing (w : World) (names : list string) :
  modprobe w = None -> open_dir w = None -> readdirnames w = Ok names ->
  (length names <= 1)%nat ->
  findDevices w =
    ([], Some (errorString "files in /sys/bus/w1/devies: no devices found")).
Proof.
  intros Hm Ho Hr Hlen. rewrite (findDevices_listing w names Hm Ho Hr).
  destruct (Nat.leb_spec (length names) 1) as [_|Hgt]; [reflexivity|lia].
Qed.

Lemma findDevices_short_listing_witness :
  is_bus_master "28-0000aabbcc" = false
  /\ findDevices (host ["28-0000aabbcc"] []) =
       ([], Some (errorString "files in /sys/bus/w1/devies: no devices found")).
Proof.
  split; [reflexivity|].
  apply (findDevices_short_listing (host ["28-0000aabbcc"] []) ["28-0000aabbcc"]);
    [reflexivity | reflexivity | reflexivity | cbn [length]; lia].
Defined.




(** ** Registry construction *)

Lemma getID_decodeIdentity w h a dev :
  h !! a = Some dev ->
  getID w (Some a) h =
    match decodeIdentity w (Name dev) with
    | Failed e => Return (Some e) h
    | Ok (id, ty) => Return None (<[a := set_ID id (set_DeviceType ty dev)]> h)
    end.
Proof.
  intros Hdev. unfold decodeIdentity.
  destruct (open_file w (id_path (Name dev))) as [content|e] eqn:Hopen.
  - destruct (binary_Read_uint64 content) as [value|e] eqn:Hread.
    + rewrite (getID_value w h a dev content value Hdev Hopen Hread).
      cbv zeta. unfold modelDS18B20, modelDS18S20.
      destruct (Z.land value 0xff =? 0x28); [reflexivity|].
      destruct (Z.land value 0xff =? 0x10); reflexivity.
    + unfold getID. rewrite (bind_Return _ _ _ _ _ (load_Some _ _ _ Hdev)).
      rewrite Hopen, Hread. reflexivity.
  - unfold getID. rewrite (bind_Return _ _ _ _ _ (load_Some _ _ _ Hdev)).
    rewrite Hopen. reflexivity.
Qed.

Lemma lookup_snoc (h : heap) (d : DS1820) : (h ++ [d]) !! length h = Some d.
Proof. rewrite lookup_app_r by lia. now rewrite Nat.sub_diag. Qed.

Lemma insert_snoc (h : heap) (d d' : DS1820) :
  <[length h := d']> (h ++ [d]) = h ++ [d'].
Proof.
  replace (length h) with (length h + 0)%nat at 1 by lia.
  now rewrite insert_app_r.
Qed.

Lemma newDS1820_decodeIdentity w name h :
  newDS1820 w name h =
    match decodeIdentity w name with
    | Failed e => Return (None, Some e) (h ++ [sensor name])
    | Ok (id, ty) =>
        Return (Some (length h), None)
               (h ++ [set_ID id (set_DeviceType ty (sensor name))])
    end.
Proof.
  unfold newDS1820. unfold bind at 1. unfold new.
  unfold bind at 1. rewrite (store_Some _ _ _ _ (lookup_snoc h zeroDS1820)).
  rewrite insert_snoc. fold (sensor name).
  unfold bind. rewrite (getID_decodeIdentity w _ _ _ (lookup_snoc h (sensor name))).
  change (Name (sensor name)) with name.
  destruct (decodeIdentity w name) as [[id ty]|e].
  - now rewrite insert_snoc.
  - reflexivity.
Qed.

Lemma decoding_fails_decodeIdentity w name :
  decoding_fails w name <-> exists e, decodeIdentity w name = Failed e.
Proof.
  unfold decoding_fails. split.
  - intros (e & h' & Hnew). rewrite newDS1820_decodeIdentity in Hnew.
    destruct (decodeIdentity w name) as [[id ty]|e0]; [discriminate|]. now exists e0.
  - intros (e & He). exists e, [sensor name].
    rewrite newDS1820_decodeIdentity, He. reflexivity.
Qed.

(** The three causes of a decoding failure: the identifier file cannot be
    opened, it is shorter than eight bytes, or its family code is
    neither 0x28 nor 0x10. *)
Lemma decoding_fails_causes w name :
  decoding_fails w name <->
  (exists e, open_file w (id_path name) = Failed e)
  \/ (exists content,
        open_file w (id_path name) = Ok content
        /\ ((String.length content < 8)%nat
            \/ (Z.land (le_uint 8 content) 0xff <> 0x28
                /\ Z.land (le_uint 8 content) 0xff <> 0x10))).
Proof.
  rewrite decoding_fails_decodeIdentity. unfold decodeIdentity, binary_Read_uint64.
  unfold modelDS18B20, modelDS18S20.
  destruct (open_file w (id_path name)) as [content|e0]; split.
  - intros (e & He). right. exists content. split; [reflexivity|].
    destruct (Nat.eqb_spec (String.length content) 0) as [H0|_]; [left; lia|].
    destruct (Nat.ltb_spec (String.length content) 8) as [H8|_]; [now left|].
    right.
    destruct (Z.eqb_spec (Z.land (le_uint 8 content) 0xff) 0x28); [discriminate|].
    destruct (Z.eqb_spec (Z.land (le_uint 8 content) 0xff) 0x10); [discriminate|].
    now split.
  - intros [(e & He)|(c & Hc & Hcause)]; [discriminate|]. injection Hc as <-.
    destruct (Nat.eqb_spec (String.length content) 0) as [H0|_]; [now eexists|].
    destruct (Nat.ltb_spec (String.length content) 8) as [H8|H8]; [now eexists|].
    destruct Hcause as [Hshort|[HB HS]]; [lia|].
    destruct (Z.eqb_spec (Z.land (le_uint 8 content) 0xff) 0x28); [contradiction|].
    destruct (Z.eqb_spec (Z.land (le_uint 8 content) 0xff) 0x10); [contradiction|].
    now eexists.
  - intros _. left. now exists e0.
  - intros _. now exists e0.
Qed.

Lemma LoadDevices_loop_panics w names :
  (exists name, name ∈ names /\ decoding_fails w name) ->
  forall i devices h, LoadDevices_loop w names i devices h = Panic.
Proof.
  induction names as [|n names IH]; intros (name & Hin & Hfail) i devices h.
  - now apply elem_of_nil in Hin.
  - cbn [LoadDevices_loop]. unfold bind at 1.
    rewrite newDS1820_decodeIdentity.
    destruct (decodeIdentity w n) as [[id ty]|e] eqn:Hdec; cbn [fst snd].
    + apply IH. exists name. split; [|exact Hfail].
      apply elem_of_cons in Hin as [->|Hin]; [|exact Hin].
      apply decoding_fails_decodeIdentity in Hfail as (e & He). congruence.
    + match goal with
      | |- context [?l !! i] => destruct (l !! i) as [p|] eqn:Hp
      end; [|reflexivity].
      apply list_lookup_insert_Some in Hp as [(_ & <- & _)|(Hne & _)];
        [reflexivity | congruence].
Qed.

(** C1, on the code. When the identity of an enumerated device cannot be
    decoded, [LoadDevices] does not return an error: building the message
    reads [devices[i].Name] through the nil pointer that [newDS1820] has
    just returned, and the call panics. *)
Theorem LoadDevices_decode_failure_panics (w : World) (h : heap)
    (names : list string) (name : string) :
  findDevices w = (names, None) ->
  name ∈ names ->
  decoding_fails w name ->
  LoadDevices w h = Panic.
Proof.
  intros Hfind Hin Hfail. unfold LoadDevices. rewrite Hfind.
  apply LoadDevices_loop_panics. now exists name.
Qed.

Lemma LoadDevices_decode_failure_panics_witness :
  LoadDevices (host ["w1_bus_master1"; "22-0000aabbcc"]
                    [(id_path "22-0000aabbcc",
                      bytes [0x22; 0x0F; 0xEE; 0xDD; 0xCC; 0xBB; 0xAA; 0x00])]) []
  = Panic.
Proof.
  apply (LoadDevices_decode_failure_panics _ [] ["22-0000aabbcc"] "22-0000aabbcc").
  - reflexivity.
  - apply list_elem_of_here.
  - eexists _, _. reflexivity.
Defined.

(** ** The scanning loop of one device *)

Lemma set_LastTemp_same dev : set_LastTemp (LastTemp dev) dev = dev.
Proof. now destruct dev. Qed.

Lemma scan_loop_S device lines :
  forall i h, scan_loop device (S i) lines h = scan_loop device 1 lines h.
Proof.
  induction lines as [|line lines IH]; intros i h; [reflexivity|].
  cbn [scan_loop Nat.eqb].
  destruct (FindStringSubmatch _TestSampleRegex line) as [[m0 m1]|]; [|reflexivity].
  destruct (strconv_ParseInt m1) as [v [e|]]; [reflexivity|].
  unfold bind. destruct (store device (set_LastTemp (celsius v)) h); [|reflexivity].
  now rewrite (IH (S i)), (IH 1%nat).
Qed.

Lemma scan_crc_pass device line lines h :
  crc_passes line ->
  scan_loop device 0 (line :: lines) h = scan_loop device 1 lines h.
Proof.
  unfold crc_passes. intros Hpass. cbn [scan_loop Nat.eqb].
  destruct (FindStringSubmatch _CrcCheckRegex line) as [[m0 m1]|]; [|reflexivity].
  subst m1. reflexivity.
Qed.

Lemma scan_crc_fail device line lines h m0 m1 :
  FindStringSubmatch _CrcCheckRegex line = Some (m0, m1) ->
  m1 <> "YES" ->
  scan_loop device 0 (line :: lines) h =
    Return (Some (Errorf "CRC mismatch on read" [])) h.
Proof.
  intros Hm Hne. cbn [scan_loop Nat.eqb]. rewrite Hm.
  destruct (String.eqb_spec m1 "YES") as [?|_]; [contradiction|]. reflexivity.
Qed.

Lemma scan_sample_step a dev line lines v i h :
  h !! a = Some dev ->
  line_sample line v ->
  scan_loop (Some a) (S i) (line :: lines) h =
    scan_loop (Some a) 1 lines (<[a := set_LastTemp (celsius v) dev]> h).
Proof.
  intros Hdev (m0 & m1 & Hm & Hparse). cbn [scan_loop Nat.eqb].
  rewrite Hm, Hparse. unfold bind. rewrite (store_Some _ _ _ _ Hdev).
  apply scan_loop_S.
Qed.

Lemma scan_no_sample device line lines i h :
  FindStringSubmatch _TestSampleRegex line = None ->
  scan_loop device (S i) (line :: lines) h =
    Return (Some (Errorf "EOF without data from w1" [])) h.
Proof. intros Hm. cbn [scan_loop Nat.eqb]. now rewrite Hm. Qed.

(** The loop touches one field of one record, and never panics on a
    valid pointer. *)
Lemma scan_loop_frame a lines :
  forall i h dev, h !! a = Some dev ->
  exists r t, scan_loop (Some a) i lines h = Return r (<[a := set_LastTemp t dev]> h).
Proof.
  induction lines as [|line lines IH]; intros i h dev Hdev.
  - exists None, (LastTemp dev). cbn [scan_loop]. unfold ret.
    now rewrite set_LastTemp_same, list_insert_id.
  - assert (Hsame : <[a := set_LastTemp (LastTemp dev) dev]> h = h)
      by now rewrite set_LastTemp_same, list_insert_id.
    cbn [scan_loop]. destruct (i =? 0)%nat.
    + destruct (FindStringSubmatch _CrcCheckRegex line) as [[m0 m1]|].
      * destruct (negb (m1 =? "YES")%string).
        -- eexists _, (LastTemp dev). unfold ret. now rewrite Hsame.
        -- apply IH, Hdev.
      * apply IH, Hdev.
    + destruct (FindStringSubmatch _TestSampleRegex line) as [[m0 m1]|].
      * destruct (strconv_ParseInt m1) as [v [e|]].
        -- eexists _, (LastTemp dev). unfold ret. now rewrite Hsame.
        -- unfold bind. rewrite (store_Some _ _ _ _ Hdev).
           assert (Hlt : (a < length h)%nat) by (eapply lookup_lt_Some; eassumption).
           destruct (IH (S i) (<[a := set_LastTemp (celsius v) dev]> h)
                        (set_LastTemp (celsius v) dev)) as (r & t & Hscan).
           { now apply list_lookup_insert_eq. }
           exists r, t. rewrite Hscan, list_insert_insert_eq. reflexivity.
      * eexists _, (LastTemp dev). unfold ret. now rewrite Hsame.
Qed.

(** ** The loop over the registry *)

Lemma ReadDevices_body_tokens w a dev content h :
  h !! a = Some dev ->
  open_file w (w1_slave_path (Name dev)) = Ok content ->
  ReadDevices_body w (Some a) h = scan_loop (Some a) 0 (scanner_tokens content) h.
Proof.
  intros Hdev Hopen. unfold ReadDevices_body.
  rewrite (bind_Return _ _ _ _ _ (load_Some _ _ _ Hdev)). now rewrite Hopen.
Qed.

Lemma ReadDevices_body_frame w a h dev :
  h !! a = Some dev ->
  exists r t, ReadDevices_body w (Some a) h = Return r (<[a := set_LastTemp t dev]> h).
Proof.
  intros Hdev. unfold ReadDevices_body.
  rewrite (bind_Return _ _ _ _ _ (load_Some _ _ _ Hdev)).
  destruct (open_file w (w1_slave_path (Name dev))) as [content|e].
  - now apply scan_loop_frame.
  - exists (Some e), (LastTemp dev). unfold ret.
    now rewrite set_LastTemp_same, list_insert_id.
Qed.

Lemma ReadDevices_body_valid w p h r h' :
  ReadDevices_body w p h = Return r h' ->
  exists a dev, p = Some a /\ h !! a = Some dev.
Proof.
  unfold ReadDevices_body, bind, load. intros Hret.
  destruct p as [a|]; [|discriminate].
  destruct (h !! a) as [dev|] eqn:Hdev; [|discriminate].
  now exists a, dev.
Qed.

Lemma same_devices_refl h : same_devices h h.
Proof.
  intros a. destruct (h !! a) as [dev|] eqn:Hdev; [right|now left].
  exists dev, (LastTemp dev). now rewrite set_LastTemp_same.
Qed.

Lemma same_devices_trans h1 h2 h3 :
  same_devices h1 h2 -> same_devices h2 h3 -> same_devices h1 h3.
Proof.
  intros H12 H23 a.
  destruct (H12 a) as [[Ha2 Ha1]|(d1 & t1 & Ha1 & Ha2)];
    destruct (H23 a) as [[Ha3 Ha2']|(d2 & t2 & Ha2' & Ha3)]; try congruence.
  - now left.
  - right. exists d1, t2. split; [exact Ha1|].
    rewrite Ha3. rewrite Ha2 in Ha2'. injection Ha2' as <-. reflexivity.
Qed.

Lemma same_devices_insert h a dev t :
  h !! a = Some dev -> same_devices h (<[a := set_LastTemp t dev]> h).
Proof.
  intros Hdev b. destruct (decide (a = b)) as [<-|Hne].
  - right. exists dev, t. split; [exact Hdev|].
    apply list_lookup_insert_eq. eapply lookup_lt_Some; eassumption.
  - rewrite list_lookup_insert_ne by exact Hne. apply same_devices_refl.
Qed.

Lemma same_devices_Name h h' a dev' :
  same_devices h h' -> h' !! a = Some dev' ->
  exists dev, h !! a = Some dev /\ Name dev = Name dev'.
Proof.
  intros Hsame Hdev'. destruct (Hsame a) as [[Hn _]|(dev & t & Ha & Ha')]; [congruence|].
  exists dev. split; [exact Ha|]. rewrite Ha' in Hdev'. now injection Hdev' as <-.
Qed.

Lemma ReadDevices_body_same w p h r h' :
  ReadDevices_body w p h = Return r h' ->
  same_devices h h' /\ forall b, p <> Some b -> h' !! b = h !! b.
Proof.
  intros Hret.
  destruct (ReadDevices_body_valid w p h r h' Hret) as (a & dev & -> & Hdev).
  destruct (ReadDevices_body_frame w a h dev Hdev) as (r0 & t & Hframe).
  rewrite Hframe in Hret. injection Hret as <- <-. split.
  - now apply same_devices_insert.
  - intros b Hne. apply list_lookup_insert_ne. congruence.
Qed.

Lemma ReadDevices_cons w p d h :
  ReadDevices w (p :: d) h =
    match ReadDevices_body w p h with
    | Return None h1 => ReadDevices w d h1
    | Return (Some e) h1 => Return (Some e) h1
    | Panic => Panic
    end.
Proof.
  cbn [ReadDevices]. unfold bind.
  destruct (ReadDevices_body w p h) as [[e|] h1|]; reflexivity.
Qed.

Lemma ReadDevices_app w pre post :
  forall h, ReadDevices w (pre ++ post) h =
    match ReadDevices w pre h with
    | Return None h1 => ReadDevices w post h1
    | Return (Some e) h1 => Return (Some e) h1
    | Panic => Panic
    end.
Proof.
  induction pre as [|p pre IH]; intros h; [reflexivity|].
  rewrite <- app_comm_cons, !ReadDevices_cons.
  destruct (ReadDevices_body w p h) as [[e|] h1|]; [reflexivity| |reflexivity].
  apply IH.
Qed.

Lemma ReadDevices_same w d :
  forall h r h', ReadDevices w d h = Return r h' ->
  same_devices h h' /\ forall b, Some b ∉ d -> h' !! b = h !! b.
Proof.
  induction d as [|p d IH]; intros h r h' Hret.
  - injection Hret as <- <-. split; [apply same_devices_refl|reflexivity].
  - rewrite ReadDevices_cons in Hret.
    destruct (ReadDevices_body w p h) as [[e|] h1|] eqn:Hbody; [| |discriminate].
    + injection Hret as <- <-.
      destruct (ReadDevices_body_same w p h _ _ Hbody) as [Hsame Hother].
      split; [exact Hsame|]. intros b Hb. apply Hother.
      intros ->. apply Hb, list_elem_of_here.
    + destruct (ReadDevices_body_same w p h _ _ Hbody) as [Hsame1 Hother1].
      destruct (IH h1 r h' Hret) as [Hsame2 Hother2]. split.
      * eapply same_devices_trans; eassumption.
      * intros b Hb. rewrite Hother2, Hother1; [reflexivity| |].
        -- intros ->. apply Hb, list_elem_of_here.
        -- intros Hin. apply Hb. now apply list_elem_of_further.
Qed.

(** ** The CRC gate *)

Lemma ReadDevices_passed_crc w pre :
  forall h h1, ReadDevices w pre h = Return None h1 ->
  forall a dev content line rest m0 m1,
    Some a ∈ pre -> h !! a = Some dev ->
    open_file w (w1_slave_path (Name dev)) = Ok content ->
    scanner_tokens content = line :: rest ->
    FindStringSubmatch _CrcCheckRegex line = Some (m0, m1) ->
    m1 = "YES".
Proof.
  induction pre as [|p pre IH];
    intros h h1 Hret a dev content line rest m0 m1 Hin Hdev Hopen Htok Hm.
  - now apply elem_of_nil in Hin.
  - rewrite ReadDevices_cons in Hret.
    destruct (ReadDevices_body w p h) as [[e|] h2|] eqn:Hbody; try discriminate.
    destruct (decide (m1 = "YES")) as [Hyes|Hno]; [exact Hyes|exfalso].
    apply elem_of_cons in Hin as [<-|Hin].
    + rewrite (ReadDevices_body_tokens w a dev content h Hdev Hopen), Htok in Hbody.
      now rewrite (scan_crc_fail _ _ _ _ _ _ Hm Hno) in Hbody.
    + destruct (ReadDevices_body_same w p h _ _ Hbody) as [Hsame _].
      destruct (Hsame a) as [[_ Hnone]|(dev0 & t & Ha & Ha2)]; [congruence|].
      rewrite Hdev in Ha. injection Ha as <-.
      apply Hno. exact (IH h2 h1 Hret a (set_LastTemp t dev) content line rest m0 m1
                           Hin Ha2 Hopen Htok Hm).
Qed.

(** C7. When the first line of a device's status file holds the CRC marker
    with a verdict other than YES, [ReadDevices] fails with the
    CRC-mismatch error, and the record of that device is, after the call,
    what it was before the call. *)
Theorem ReadDevices_crc_mismatch (w : World) (h h1 : heap) (pre post : list ptr)
    (a : nat) (dev : DS1820) (content line : string) (rest : list string)
    (m0 m1 : string) :
  ReadDevices w pre h = Return None h1 ->
  h1 !! a = Some dev ->
  open_file w (w1_slave_path (Name dev)) = Ok content ->
  scanner_tokens content = line :: rest ->
  FindStringSubmatch _CrcCheckRegex line = Some (m0, m1) ->
  m1 <> "YES" ->
  ReadDevices w (pre ++ Some a :: post) h =
    Return (Some (Errorf "CRC mismatch on read" [])) h1
  /\ h1 !! a = h !! a.
Proof.
  intros Hpre Hdev Hopen Htok Hm Hno. split.
  - rewrite ReadDevices_app, Hpre, ReadDevices_cons.
    rewrite (ReadDevices_body_tokens w a dev content h1 Hdev Hopen), Htok.
    now rewrite (scan_crc_fail _ _ _ _ _ _ Hm Hno).
  - destruct (ReadDevices_same w pre h _ _ Hpre) as [Hsame Hother].
    apply Hother. intros Hin.
    destruct (same_devices_Name h h1 a dev Hsame Hdev) as (dev0 & Hdev0 & Hname).
    apply Hno.
    eapply (ReadDevices_passed_crc w pre h h1 Hpre a dev0 content); try eassumption.
    now rewrite Hname.
Qed.

Lemma ReadDevices_crc_mismatch_witness :
  ReadDevices (host [] [(w1_slave_path "28-0000aabbcc", status_good);
                        (w1_slave_path "28-0000ddeeff", status_crc_NO)])
              [Some 0%nat; Some 1%nat]
              [sensor "28-0000aabbcc"; sensor "28-0000ddeeff"]
  = Return (Some (Errorf "CRC mismatch on read" []))
           [set_LastTemp (celsius 23562) (sensor "28-0000aabbcc");
            sensor "28-0000ddeeff"].
Proof.
  apply (ReadDevices_crc_mismatch
    (host [] [(w1_slave_path "28-0000aabbcc", status_good);
              (w1_slave_path "28-0000ddeeff", status_crc_NO)])
    [sensor "28-0000aabbcc"; sensor "28-0000ddeeff"]
    [set_LastTemp (celsius 23562) (sensor "28-0000aabbcc"); sensor "28-0000ddeeff"]
    [Some 0%nat] [] 1 (sensor "28-0000ddeeff") status_crc_NO
    "50 05 4b 46 7f ff 0c 10 1c : crc=1a NO"
    ["50 05 4b 46 7f ff 0c 10 1c t=25000"] "crc=1a NO" "NO");
    [reflexivity | reflexivity | reflexivity | reflexivity | reflexivity | discriminate].
Defined.

(** ** Lines after the first *)

Lemma after_samples_cons a dev v vs h :
  h !! a = Some dev ->
  after_samples a (set_LastTemp (celsius v) dev) vs
                (<[a := set_LastTemp (celsius v) dev]> h)
  = after_samples a dev (v :: vs) h.
Proof.
  intros Hdev. unfold after_samples. destruct vs as [|v' vs]; [reflexivity|].
  rewrite last_cons_cons. destruct (last (v' :: vs)) eqn:Hlast.
  - now rewrite list_insert_insert_eq.
  - now apply last_None in Hlast.
Qed.

Lemma after_samples_lookup a dev vs h :
  h !! a = Some dev ->
  exists t, after_samples a dev vs h !! a = Some (set_LastTemp t dev).
Proof.
  intros Hdev. unfold after_samples. destruct (last vs) as [v|].
  - exists (celsius v). apply list_lookup_insert_eq. eapply lookup_lt_Some; eassumption.
  - exists (LastTemp dev). now rewrite set_LastTemp_same.
Qed.

Lemma scan_samples a :
  forall good vs, Forall2 line_sample good vs ->
  forall dev h i rest,
    h !! a = Some dev ->
    scan_loop (Some a) (S i) (good ++ rest) h =
      scan_loop (Some a) 1 rest (after_samples a dev vs h).
Proof.
  induction 1 as [|line v good vs Hline Hgood IH]; intros dev h i rest Hdev.
  - cbn [app]. unfold after_samples. cbn [last]. apply scan_loop_S.
  - assert (Hlt : (a < length h)%nat) by (eapply lookup_lt_Some; eassumption).
    rewrite <- app_comm_cons, (scan_sample_step a dev line _ v i h Hdev Hline).
    rewrite (IH (set_LastTemp (celsius v) dev)) by (now apply list_lookup_insert_eq).
    now rewrite after_samples_cons.
Qed.

(** Where a scan that fails after the first line has failed. *)
Lemma scan_failure a :
  forall lines i h dev e h',
    h !! a = Some dev ->
    scan_loop (Some a) (S i) lines h = Return (Some e) h' ->
    exists good vs bad rest,
      lines = good ++ bad :: rest
      /\ Forall2 line_sample good vs
      /\ line_rejected bad e
      /\ h' = after_samples a dev vs h.
Proof.
  induction lines as [|line lines IH]; intros i h dev e h' Hdev Hscan.
  - discriminate.
  - cbn [scan_loop Nat.eqb] in Hscan.
    destruct (FindStringSubmatch _TestSampleRegex line) as [[m0 m1]|] eqn:Hm.
    + destruct (strconv_ParseInt m1) as [v [e0|]] eqn:Hparse.
      * injection Hscan as <- <-. exists [], [], line, lines.
        repeat split; [constructor|].
        right. now exists m0, m1, v.
      * unfold bind in Hscan. rewrite (store_Some _ _ _ _ Hdev) in Hscan.
        assert (Hlt : (a < length h)%nat) by (eapply lookup_lt_Some; eassumption).
        destruct (IH (S i) _ (set_LastTemp (celsius v) dev) e h'
                     (list_lookup_insert_eq _ _ _ Hlt) Hscan)
          as (good & vs & bad & rest & -> & Hgood & Hbad & ->).
        exists (line :: good), (v :: vs), bad, rest.
        repeat split; [|exact Hbad|now apply after_samples_cons].
        constructor; [|exact Hgood]. now exists m0, m1.
    + injection Hscan as <- <-. exists [], [], line, lines.
      repeat split; [constructor|]. now left.
Qed.

(** What a scan that succeeds after the first line has stored. *)
Lemma scan_success a :
  forall lines i h dev h',
    h !! a = Some dev ->
    scan_loop (Some a) (S i) lines h = Return None h' ->
    exists vs, Forall2 line_sample lines vs /\ h' = after_samples a dev vs h.
Proof.
  induction lines as [|line lines IH]; intros i h dev h' Hdev Hscan.
  - injection Hscan as <-. exists []. split; [constructor|reflexivity].
  - cbn [scan_loop Nat.eqb] in Hscan.
    destruct (FindStringSubmatch _TestSampleRegex line) as [[m0 m1]|] eqn:Hm;
      [|discriminate].
    destruct (strconv_ParseInt m1) as [v [e0|]] eqn:Hparse; [discriminate|].
    unfold bind in Hscan. rewrite (store_Some _ _ _ _ Hdev) in Hscan.
    assert (Hlt : (a < length h)%nat) by (eapply lookup_lt_Some; eassumption).
    destruct (IH (S i) _ (set_LastTemp (celsius v) dev) h'
                 (list_lookup_insert_eq _ _ _ Hlt) Hscan) as (vs & Hgood & ->).
    exists (v :: vs). split; [|now apply after_samples_cons].
    constructor; [|exact Hgood]. now exists m0, m1.
Qed.

(** The two ways in which a line after the first fails the call: no
    white space, [t=] and digit in it, or digits beyond the range of a
    signed 64-bit integer. *)
Lemma line_rejected_causes line e :
  line_rejected line e ->
  (has_sample line = false /\ e = Errorf "EOF without data from w1" [])
  \/ exists m1,
       string_forall is_digit m1 = true
       /\ e = NumError "ParseInt" m1 strconv_ErrRange.
Proof.
  intros [[Hnone ->]|(m0 & m1 & v & Hm & Hparse)].
  - left. split; [|reflexivity]. now apply FindStringSubmatch_sample_None.
  - right. exists m1.
    destruct (FindStringSubmatch_sample_digits line m0 m1 Hm) as [Hne Hds].
    split; [exact Hds|].
    destruct (strconv_ParseInt_digits m1 Hne Hds) as [(v' & Hok & _)|Hrange];
      congruence.
Qed.



(** C8, as stated, fails: a field at the very start of its line is not
    matched, and the call fails without storing the sample. *)
Lemma ReadDevices_field_at_line_start :
  ReadDevices (host [] [(w1_slave_path "28-0000aabbcc", status_field_first)])
              [Some 0%nat] [sensor "28-0000aabbcc"]
  = Return (Some (Errorf "EOF without data from w1" [])) [sensor "28-0000aabbcc"].
Proof. reflexivity. Qed.

(** C8, amended. The sample pattern asks for a white-space character
    before [t=]. In every line after the first where a white space, [t=]
    and digits occur, at any position, the digits of the last such field
    are parsed; when they fit a signed 64-bit integer the sample is stored
    and the scan goes on with the next line. A line without any such
    field, as one whose [t=] starts the line, fails the call with the
    EOF-without-data error. *)
Theorem ReadDevices_sample_after_space (w : World) (h : heap) (a : nat)
    (dev : DS1820) (content l0 : string) (good : list string) (vs : list Z) :
  h !! a = Some dev ->
  open_file w (w1_slave_path (Name dev)) = Ok content ->
  crc_passes l0 ->
  Forall2 line_sample good vs ->
  (forall pre sp ds tail rest v,
     scanner_tokens content =
       l0 :: good ++ (pre +:+ String sp ("t=" +:+ ds +:+ tail)) :: rest ->
     is_space sp = true -> ds <> "" -> string_forall is_digit ds = true ->
     head_is is_digit tail = false -> has_sample tail = false ->
     strconv_ParseInt ds = (v, None) ->
     ReadDevices_body w (Some a) h =
       scan_loop (Some a) 1 rest (<[a := set_LastTemp (celsius v) dev]> h))
  /\ (forall line rest,
        scanner_tokens content = l0 :: good ++ line :: rest ->
        has_sample line = false ->
        ReadDevices_body w (Some a) h =
          Return (Some (Errorf "EOF without data from w1" []))
                 (after_samples a dev vs h)).
Proof.
  intros Hdev Hopen Hcrc Hgood.
  rewrite (ReadDevices_body_tokens w a dev content h Hdev Hopen). split.
  - intros pre sp ds tail rest v Htok Hsp Hne Hds Hhead Htail Hparse.
    assert (Hpre : string_forall is_dot pre = true).
    { assert (Hline : string_forall is_dot
                        (pre +:+ String sp ("t=" +:+ ds +:+ tail)) = true).
      { apply (scanner_tokens_no_newline content). rewrite Htok.
        apply list_elem_of_further, elem_of_app. right. apply list_elem_of_here. }
      rewrite string_forall_app in Hline. now apply andb_prop in Hline as [Hline _]. }
    rewrite Htok, (scan_crc_pass _ _ _ _ Hcrc).
    rewrite (scan_samples a good vs Hgood dev h 0%nat _ Hdev).
    destruct (after_samples_lookup a dev vs h Hdev) as (t & Hafter).
    rewrite (scan_sample_step a _ _ rest v 0%nat _ Hafter).
    + f_equal. unfold after_samples. destruct (last vs).
      * now rewrite list_insert_insert_eq.
      * reflexivity.
    + eexists _, ds. split; [|exact Hparse].
      now apply FindStringSubmatch_sample.
  - intros line rest Htok Hnone.
    rewrite Htok, (scan_crc_pass _ _ _ _ Hcrc).
    rewrite (scan_samples a good vs Hgood dev h 0%nat _ Hdev).
    apply scan_no_sample. now apply FindStringSubmatch_sample_None.
Qed.

Lemma ReadDevices_sample_after_space_witness :
  ReadDevices_body (host [] [(w1_slave_path "28-0000aabbcc", status_good)])
                   (Some 0%nat) [sensor "28-0000aabbcc"]
  = Return None [set_LastTemp 0x1.78fdf3b645a1dp+4%float (sensor "28-0000aabbcc")].
Proof.
  pose proof (ReadDevices_sample_after_space
    (host [] [(w1_slave_path "28-0000aabbcc", status_good)])
    [sensor "28-0000aabbcc"] 0 (sensor "28-0000aabbcc") status_good
    "23 01 4b 46 7f ff 0c 10 45 : crc=1a YES" [] [] eq_refl eq_refl) as Hthm.
  destruct Hthm as [Hfield _].
  - reflexivity.
  - constructor.
  - rewrite (Hfield "23 01 4b 46 7f ff 0c 10 45" " "%char "23562" "" [] 23562);
      [reflexivity | reflexivity | reflexivity | discriminate
      | reflexivity | reflexivity | reflexivity | reflexivity].
Defined.

(** ** Files without sample *)

(** C2, on the code. A status file that is empty, or that holds the CRC
    line only, ends the scan before any line is tested: no error is
    returned, the device is skipped and the call goes on with the next
    one. *)
Theorem ReadDevices_skips_file_without_sample (w : World) (h : heap) (a : nat)
    (dev : DS1820) (d : list ptr) (content : string) :
  h !! a = Some dev ->
  open_file w (w1_slave_path (Name dev)) = Ok content ->
  scanner_tokens content = []
    \/ (exists l0, scanner_tokens content = [l0] /\ crc_passes l0) ->
  ReadDevices w (Some a :: d) h = ReadDevices w d h.
Proof.
  intros Hdev Hopen Htok. rewrite ReadDevices_cons.
  rewrite (ReadDevices_body_tokens w a dev content h Hdev Hopen).
  destruct Htok as [->|(l0 & -> & Hcrc)]; [reflexivity|].
  now rewrite (scan_crc_pass _ _ _ _ Hcrc).
Qed.

Lemma ReadDevices_skips_file_without_sample_witness :
  ReadDevices (host [] [(w1_slave_path "28-0000000001", status_good);
                        (w1_slave_path "28-0000000002", "");
                        (w1_slave_path "28-0000000003", status_good)])
              [Some 1%nat; Some 2%nat]
              [set_LastTemp (celsius 23562) (sensor "28-0000000001");
               sensor "28-0000000002"; sensor "28-0000000003"]
  = Return None
      [set_LastTemp (celsius 23562) (sensor "28-0000000001");
       sensor "28-0000000002";
       set_LastTemp (celsius 23562) (sensor "28-0000000003")].
Proof.
  rewrite (ReadDevices_skips_file_without_sample _ _ 1 (sensor "28-0000000002") _ "");
    [reflexivity | reflexivity | reflexivity | left; reflexivity].
Defined.

(** The partial-batch example: the second of three status files is
    empty. The call returns no error and the third device is read. *)
Lemma ReadDevices_second_file_empty :
  ReadDevices (host [] [(w1_slave_path "28-0000000001", status_good);
                        (w1_slave_path "28-0000000002", "");
                        (w1_slave_path "28-0000000003", status_good)])
              [Some 0%nat; Some 1%nat; Some 2%nat]
              [sensor "28-0000000001"; sensor "28-0000000002"; sensor "28-0000000003"]
  = Return None
      [set_LastTemp (celsius 23562) (sensor "28-0000000001");
       sensor "28-0000000002";
       set_LastTemp (celsius 23562) (sensor "28-0000000003")].
Proof. reflexivity. Qed.

(** ** Signed fields *)

Lemma space_not_digit c : is_space c = true -> is_digit c = false.
Proof.
  intros Hsp. destruct (is_digit c) eqn:Hd; [|reflexivity].
  apply digit_not_space in Hd. congruence.
Qed.

Lemma space_not_letter c : is_space c = true ->
  Ascii.eqb c "t" = false /\ Ascii.eqb c "=" = false.
Proof.
  intros Hsp. split.
  - destruct (Ascii.eqb_spec c "t") as [->|_]; [discriminate|reflexivity].
  - destruct (Ascii.eqb_spec c "=") as [->|_]; [discriminate|reflexivity].
Qed.

(** A field cannot begin before a white space and end after it. *)
Lemma has_sample_app_space pre sp s :
  is_space sp = true -> has_sample pre = false ->
  has_sample (pre +:+ String sp s) = has_sample (String sp s).
Proof.
  intros Hsp. destruct (space_not_letter sp Hsp) as [Ht He].
  pose proof (space_not_digit sp Hsp) as Hd.
  induction pre as [|c pre IH]; intros Hpre; [reflexivity|].
  cbn [has_sample] in Hpre. apply orb_false_elim in Hpre as [Hhere Hpre].
  rewrite app_cons. cbn [has_sample]. rewrite (IH Hpre).
  replace (sample_here (String c (pre +:+ String sp s))) with false; [reflexivity|].
  symmetry. destruct pre as [|x [|y [|z pre]]];
    rewrite ?app_cons, ?app_empty; [| | |exact Hhere]; unfold sample_here;
    repeat match goal with
    | |- context [match ?x with EmptyString => _ | String _ _ => _ end] =>
        destruct x
    end;
    rewrite ?Ht, ?He, ?Hd, ?andb_false_r; reflexivity.
Qed.

(** C5, on the code. The group of the sample pattern is [\d+]: a field
    with a sign is not matched. A line whose field is signed, and which
    holds no other field, fails the call with the EOF-without-data error,
    and nothing is stored. *)
Theorem ReadDevices_signed_field_rejected (w : World) (h : heap) (a : nat)
    (dev : DS1820) (d : list ptr) (content l0 pre : string) (sp sign : ascii)
    (tail : string) (rest : list string) :
  h !! a = Some dev ->
  open_file w (w1_slave_path (Name dev)) = Ok content ->
  scanner_tokens content =
    l0 :: (pre +:+ String sp ("t=" +:+ String sign tail)) :: rest ->
  crc_passes l0 ->
  is_space sp = true ->
  Ascii.eqb sign "-" || Ascii.eqb sign "+" = true ->
  has_sample pre = false -> has_sample tail = false ->
  ReadDevices w (Some a :: d) h =
    Return (Some (Errorf "EOF without data from w1" [])) h.
Proof.
  intros Hdev Hopen Htok Hcrc Hsp Hsign Hpre Htail.
  rewrite ReadDevices_cons.
  rewrite (ReadDevices_body_tokens w a dev content h Hdev Hopen), Htok.
  rewrite (scan_crc_pass _ _ _ _ Hcrc), scan_no_sample; [reflexivity|].
  apply FindStringSubmatch_sample_None.
  rewrite (has_sample_app_space pre sp _ Hsp Hpre).
  assert (Hs : is_digit sign = false /\ is_space sign = false).
  { apply orb_prop in Hsign as [Hs|Hs]; apply Ascii.eqb_eq in Hs; subst sign;
      split; reflexivity. }
  destruct Hs as [Hnd Hns]. rewrite !app_cons, app_empty.
  cbn [has_sample]. rewrite Htail.
  unfold sample_here at 1. rewrite Hnd, andb_false_r.
  unfold sample_here at 3. rewrite Hns.
  unfold sample_here. cbn [is_space byte_val]. cbn.
  now destruct tail as [|? [|? [|? ?]]].
Qed.

Lemma ReadDevices_signed_field_rejected_witness :
  ReadDevices (host [] [(w1_slave_path "28-0000aabbcc", status_negative)])
              [Some 0%nat] [sensor "28-0000aabbcc"]
  = Return (Some (Errorf "EOF without data from w1" [])) [sensor "28-0000aabbcc"].
Proof.
  apply (ReadDevices_signed_field_rejected
    (host [] [(w1_slave_path "28-0000aabbcc", status_negative)])
    [sensor "28-0000aabbcc"] 0 (sensor "28-0000aabbcc") [] status_negative
    "f8 ff 4b 46 7f ff 0c 10 2c : crc=2c YES"
    "f8 ff 4b 46 7f ff 0c 10 2c" " "%char "-"%char "500" []);
    reflexivity.
Defined.

(** ** Failure part-way through the registry *)

(** C3, as stated, fails: the device on which the call fails has been
    given the samples of the lines before the failing one. *)
Lemma ReadDevices_failing_device_changed :
  ReadDevices (host [] [(w1_slave_path "28-0000aabbcc", status_three_lines)])
              [Some 0%nat] [sensor "28-0000aabbcc"]
  = Return (Some (Errorf "EOF without data from w1" []))
           [set_LastTemp (celsius 22687) (sensor "28-0000aabbcc")]
  /\ LastTemp (set_LastTemp (celsius 22687) (sensor "28-0000aabbcc"))
     <> LastTemp (sensor "28-0000aabbcc").
Proof.
  split; [reflexivity|].
  intros Heq. apply (f_equal (PrimFloat.ltb 0%float)) in Heq.
  vm_compute in Heq. discriminate.
Qed.

Lemma ReadDevices_failure_split w reg :
  forall h e h', ReadDevices w reg h = Return (Some e) h' ->
  exists pre p post h1,
    reg = pre ++ p :: post
    /\ ReadDevices w pre h = Return None h1
    /\ ReadDevices_body w p h1 = Return (Some e) h'.
Proof.
  induction reg as [|p reg IH]; intros h e h' Hret; [discriminate|].
  rewrite ReadDevices_cons in Hret.
  destruct (ReadDevices_body w p h) as [[e0|] h2|] eqn:Hbody; [| |discriminate].
  - injection Hret as <- <-. now exists [], p, reg, h.
  - destruct (IH h2 e h' Hret) as (pre & q & post & h1 & -> & Hpre & Hq).
    exists (p :: pre), q, post, h1. split; [reflexivity|]. split; [|exact Hq].
    now rewrite ReadDevices_cons, Hbody.
Qed.

(** The three ways in which the body can fail on a device. *)
Lemma ReadDevices_body_failure w k dev h e h' :
  h !! k = Some dev ->
  ReadDevices_body w (Some k) h = Return (Some e) h' ->
  (open_file w (w1_slave_path (Name dev)) = Failed e /\ h' = h)
  \/ (exists content l0 rest m0 m1,
        open_file w (w1_slave_path (Name dev)) = Ok content
        /\ scanner_tokens content = l0 :: rest
        /\ FindStringSubmatch _CrcCheckRegex l0 = Some (m0, m1)
        /\ m1 <> "YES"
        /\ e = Errorf "CRC mismatch on read" []
        /\ h' = h)
  \/ (exists content l0 good vs bad rest,
        open_file w (w1_slave_path (Name dev)) = Ok content
        /\ scanner_tokens content = l0 :: good ++ bad :: rest
        /\ crc_passes l0
        /\ Forall2 line_sample good vs
        /\ line_rejected bad e
        /\ h' = after_samples k dev vs h).
Proof.
  intros Hdev Hbody. unfold ReadDevices_body in Hbody.
  rewrite (bind_Return _ _ _ _ _ (load_Some _ _ _ Hdev)) in Hbody.
  destruct (open_file w (w1_slave_path (Name dev))) as [content|e0] eqn:Hopen.
  - destruct (scanner_tokens content) as [|l0 lines] eqn:Htok; [discriminate|].
    destruct (FindStringSubmatch _CrcCheckRegex l0) as [[m0 m1]|] eqn:Hm.
    + destruct (decide (m1 = "YES")) as [->|Hno].
      * rewrite scan_crc_pass in Hbody by (unfold crc_passes; now rewrite Hm).
        destruct (scan_failure k lines 0%nat h dev e h' Hdev Hbody)
          as (good & vs & bad & rest & -> & Hgood & Hbad & ->).
        right. right. exists content, l0, good, vs, bad, rest.
        repeat split; try assumption. unfold crc_passes. now rewrite Hm.
      * rewrite (scan_crc_fail _ _ _ _ _ _ Hm Hno) in Hbody.
        injection Hbody as <- <-.
        right. left. now exists content, l0, lines, m0, m1.
    + rewrite scan_crc_pass in Hbody by (unfold crc_passes; now rewrite Hm).
      destruct (scan_failure k lines 0%nat h dev e h' Hdev Hbody)
        as (good & vs & bad & rest & -> & Hgood & Hbad & ->).
      right. right. exists content, l0, good, vs, bad, rest.
      repeat split; try assumption. unfold crc_passes. now rewrite Hm.
  - injection Hbody as <- <-. now left.
Qed.

(** What the body leaves in a device that it reads without error, when
    the file has a line after the first. *)
Lemma ReadDevices_body_success w a dev content h h' :
  h !! a = Some dev ->
  open_file w (w1_slave_path (Name dev)) = Ok content ->
  (2 <= length (scanner_tokens content))%nat ->
  ReadDevices_body w (Some a) h = Return None h' ->
  exists line v,
    last (scanner_tokens content) = Some line
    /\ line_sample line v
    /\ h' = <[a := set_LastTemp (celsius v) dev]> h.
Proof.
  intros Hdev Hopen Hlen Hbody.
  rewrite (ReadDevices_body_tokens w a dev content h Hdev Hopen) in Hbody.
  destruct (scanner_tokens content) as [|l0 [|l1 lines]];
    [cbn [length] in Hlen; lia | cbn [length] in Hlen; lia |].
  assert (Hpass : scan_loop (Some a) 1 (l1 :: lines) h = Return None h').
  { cbn [scan_loop Nat.eqb] in Hbody.
    destruct (FindStringSubmatch _CrcCheckRegex l0) as [[m0 m1]|]; [|exact Hbody].
    destruct (negb (m1 =? "YES")%string); [discriminate|exact Hbody]. }
  destruct (scan_success a _ 0%nat h dev h' Hdev Hpass) as (vs & Hall & ->).
  rewrite last_cons_cons.
  pose proof (Forall2_last _ _ _ Hall) as Hlast.
  unfold after_samples.
  destruct (last (l1 :: lines)) as [line|] eqn:Hl; [|now apply last_None in Hl].
  inversion Hlast as [x v Hline Hx Hv|]; subst x.
  now exists line, v.
Qed.

Lemma ReadDevices_success_last w pre :
  forall h h1, NoDup pre -> ReadDevices w pre h = Return None h1 ->
  forall a dev content,
    Some a ∈ pre -> h !! a = Some dev ->
    open_file w (w1_slave_path (Name dev)) = Ok content ->
    (2 <= length (scanner_tokens content))%nat ->
    exists line v,
      last (scanner_tokens content) = Some line
      /\ line_sample line v
      /\ h1 !! a = Some (set_LastTemp (celsius v) dev).
Proof.
  induction pre as [|p pre IH];
    intros h h1 Hnodup Hret a dev content Hin Hdev Hopen Hlen.
  - now apply elem_of_nil in Hin.
  - apply NoDup_cons in Hnodup as [Hp Hnodup].
    rewrite ReadDevices_cons in Hret.
    destruct (ReadDevices_body w p h) as [[e|] h2|] eqn:Hbody; try discriminate.
    apply elem_of_cons in Hin as [<-|Hin].
    + destruct (ReadDevices_body_success w a dev content h h2 Hdev Hopen Hlen Hbody)
        as (line & v & Hlast & Hline & ->).
      exists line, v. split; [exact Hlast|]. split; [exact Hline|].
      destruct (ReadDevices_same w pre _ _ _ Hret) as [_ Hother].
      rewrite (Hother a Hp). apply list_lookup_insert_eq.
      eapply lookup_lt_Some; eassumption.
    + destruct (ReadDevices_body_same w p h _ _ Hbody) as [_ Hother].
      apply (IH h2 h1 Hnodup Hret a dev content Hin); try assumption.
      rewrite Hother; [exact Hdev|]. intros ->. contradiction.
Qed.

(** C3, amended. The devices are read in registry order. When the call
    fails on device k of a registry of distinct records, the devices after
    k are left as they were. Device k itself is left as it was when its
    file cannot be opened, or when the call fails on its first or second
    line; when it fails on a later line, device k holds the sample of the
    line read just before. Every device before k whose file has a line
    after the first holds the sample of the last line of its file. *)
Theorem ReadDevices_failure_frame (w : World) (reg : list ptr) (h h' : heap)
    (e : error) :
  NoDup reg ->
  ReadDevices w reg h = Return (Some e) h' ->
  exists (pre post : list ptr) (k : nat) (dev : DS1820) (h1 : heap),
    reg = pre ++ Some k :: post
    /\ ReadDevices w pre h = Return None h1
    /\ ReadDevices_body w (Some k) h1 = Return (Some e) h'
    /\ h !! k = Some dev
    /\ (forall a, Some a ∈ post -> h' !! a = h !! a)
    /\ ((open_file w (w1_slave_path (Name dev)) = Failed e /\ h' !! k = Some dev)
        \/ (exists content l0 rest m0 m1,
              open_file w (w1_slave_path (Name dev)) = Ok content
              /\ scanner_tokens content = l0 :: rest
              /\ FindStringSubmatch _CrcCheckRegex l0 = Some (m0, m1)
              /\ m1 <> "YES"
              /\ h' !! k = Some dev)
        \/ (exists content l0 good vs bad rest,
              open_file w (w1_slave_path (Name dev)) = Ok content
              /\ scanner_tokens content = l0 :: good ++ bad :: rest
              /\ crc_passes l0
              /\ Forall2 line_sample good vs
              /\ line_rejected bad e
              /\ h' !! k = Some match last vs with
                                 | Some v => set_LastTemp (celsius v) dev
                                 | None => dev
                                 end))
    /\ (forall a dev0 content,
          Some a ∈ pre -> h !! a = Some dev0 ->
          open_file w (w1_slave_path (Name dev0)) = Ok content ->
          (2 <= length (scanner_tokens content))%nat ->
          exists line v,
            last (scanner_tokens content) = Some line
            /\ line_sample line v
            /\ h' !! a = Some (set_LastTemp (celsius v) dev0)).
Proof.
  intros Hnodup Hret.
  destruct (ReadDevices_failure_split w reg h e h' Hret)
    as (pre & p & post & h1 & -> & Hpre & Hbody).
  destruct (ReadDevices_body_valid w p h1 _ _ Hbody) as (k & dev & -> & Hdev1).
  apply NoDup_app in Hnodup as (Hnd_pre & Hdisj & Hnd_rest).
  apply NoDup_cons in Hnd_rest as [Hk_post _].
  assert (Hk_pre : Some k ∉ pre).
  { intros Hin. apply (Hdisj _ Hin), list_elem_of_here. }
  destruct (ReadDevices_same w pre h _ _ Hpre) as [_ Hframe_pre].
  destruct (ReadDevices_body_same w (Some k) h1 _ _ Hbody) as [_ Hframe_k].
  assert (Hdev : h !! k = Some dev) by (now rewrite <- (Hframe_pre k Hk_pre)).
  exists pre, post, k, dev, h1.
  split; [reflexivity|]. split; [exact Hpre|]. split; [exact Hbody|].
  split; [exact Hdev|]. split; [|split].
  - intros a Hin. rewrite Hframe_k, Hframe_pre; [reflexivity| |].
    + intros Ha. apply (Hdisj _ Ha). now apply list_elem_of_further.
    + intros Heq. injection Heq as ->. contradiction.
  - destruct (ReadDevices_body_failure w k dev h1 e h' Hdev1 Hbody)
      as [[Hopen ->]
         |[(content & l0 & rest & m0 & m1 & Hopen & Htok & Hm & Hno & _ & ->)
          |(content & l0 & good & vs & bad & rest
            & Hopen & Htok & Hcrc & Hgood & Hbad & ->)]].
    + left. now split.
    + right. left. now exists content, l0, rest, m0, m1.
    + right. right. exists content, l0, good, vs, bad, rest.
      repeat split; try assumption.
      unfold after_samples. destruct (last vs) as [v|]; [|exact Hdev1].
      apply list_lookup_insert_eq. eapply lookup_lt_Some; eassumption.
  - intros a dev0 content Hin Hdev0 Hopen Hlen.
    destruct (ReadDevices_success_last w pre h h1 Hnd_pre Hpre a dev0 content
                Hin Hdev0 Hopen Hlen) as (line & v & Hlast & Hline & Ha).
    exists line, v. split; [exact Hlast|]. split; [exact Hline|].
    rewrite Hframe_k; [exact Ha|]. intros Heq. injection Heq as ->. contradiction.
Qed.

Lemma ReadDevices_failure_frame_witness :
  exists (pre post : list ptr) (k : nat) (dev : DS1820) (h1 : heap),
    [Some 0%nat; Some 1%nat; Some 2%nat] = pre ++ Some k :: post
    /\ ReadDevices
         (host [] [(w1_slave_path "28-0000000001", status_good);
                   (w1_slave_path "28-0000000002", status_three_lines);
                   (w1_slave_path "28-0000000003", status_good)])
         pre
         [sensor "28-0000000001"; sensor "28-0000000002"; sensor "28-0000000003"]
       = Return None h1
    /\ [sensor "28-0000000001"; sensor "28-0000000002"; sensor "28-0000000003"] !! k
       = Some dev.
Proof.
  destruct (ReadDevices_failure_frame
    (host [] [(w1_slave_path "28-0000000001", status_good);
              (w1_slave_path "28-0000000002", status_three_lines);
              (w1_slave_path "28-0000000003", status_good)])
    [Some 0%nat; Some 1%nat; Some 2%nat]
    [sensor "28-0000000001"; sensor "28-0000000002"; sensor "28-0000000003"]
    [set_LastTemp (celsius 23562) (sensor "28-0000000001");
     set_LastTemp (celsius 22687) (sensor "28-0000000002");
     sensor "28-0000000003"]
    (Errorf "EOF without data from w1" []))
    as (pre & post & k & dev & h1 & Hreg & Hpre & _ & Hdev & _).
  - apply (bool_decide_unpack _). reflexivity.
  - reflexivity.
  - now exists pre, post, k, dev, h1.
Defined.

(** * Further properties *)

(** ** Enumeration: which names come back *)

Lemma prefix_occurs sub s :
  String.prefix sub s = true <-> exists post, s = sub +:+ post.
Proof.
  revert s. induction sub as [|c sub IH]; intros s.
  - split; [intros _; now exists s|intros _; now destruct s].
  - destruct s as [|a s]; cbn [String.prefix].
    + split; [discriminate|]. intros (post & Hpost). discriminate.
    + destruct (ascii_dec c a) as [->|Hne].
      * rewrite IH. split; intros (post & Hpost); exists post.
        -- now rewrite app_cons, <- Hpost.
        -- rewrite app_cons in Hpost. now injection Hpost.
      * split; [discriminate|]. intros (post & Hpost).
        rewrite app_cons in Hpost. injection Hpost as Hc _. congruence.
Qed.

Lemma strings_Contains_occurs s sub :
  strings_Contains s sub = true <-> occurs_in sub s.
Proof.
  unfold occurs_in. induction s as [|a s IH]; cbn [strings_Contains].
  - rewrite orb_false_r, prefix_occurs. split.
    + intros (post & Hpost). now exists "", post.
    + intros (pre & post & Hs). destruct pre; [now exists post|discriminate].
  - rewrite orb_true_iff, prefix_occurs, IH. split.
    + intros [(post & Hpost)|(pre & post & Hs)].
      * now exists "", post.
      * exists (String a pre), post. now rewrite app_cons, <- Hs.
    + intros (pre & post & Hs). destruct pre as [|c pre].
      * left. now exists post.
      * right. rewrite app_cons in Hs. injection Hs as _ Hs. now exists pre, post.
Qed.

(** X1. When [findDevices] succeeds, the listing had two entries or more
    and the names returned are those of the listing in which
    [w1_bus_master] does not occur, in the order of the listing. *)
Theorem findDevices_real_devices (w : World) (devs : list string) :
  findDevices w = (devs, None) ->
  exists names,
    readdirnames w = Ok names
    /\ (2 <= length names)%nat
    /\ devs `sublist_of` names
    /\ (forall n, n ∈ devs <-> n ∈ names /\ ~ occurs_in "w1_bus_master" n).
Proof.
  unfold findDevices. intros Hfind.
  destruct (modprobe w); [discriminate|].
  destruct (open_dir w); [discriminate|].
  destruct (readdirnames w) as [names|]; [|discriminate].
  destruct (Nat.leb_spec (length names) 1) as [|Hlen]; [discriminate|].
  injection Hfind as <-. rewrite findDevices_loop_filter. cbn [app].
  exists names. split; [reflexivity|]. split; [lia|]. split.
  - apply sublist_filter.
  - intros n. rewrite list_elem_of_filter.
    unfold is_bus_master. rewrite <- strings_Contains_occurs.
    destruct (strings_Contains n "w1_bus_master"); cbn; split.
    + intros [[] _].
    + intros [_ Hno]. now contradiction Hno.
    + intros [_ Hin]. split; [exact Hin|discriminate].
    + intros [Hin _]. split; [exact I|exact Hin].
Qed.

Lemma findDevices_real_devices_witness :
  exists names,
    readdirnames (host ["w1_bus_master1"; "28-0000aabbcc"] []) = Ok names
    /\ (2 <= length names)%nat
    /\ ["28-0000aabbcc"] `sublist_of` names
    /\ (forall n, n ∈ ["28-0000aabbcc"] <->
                  n ∈ names /\ ~ occurs_in "w1_bus_master" n).
Proof.
  apply (findDevices_real_devices (host ["w1_bus_master1"; "28-0000aabbcc"] [])).
  reflexivity.
Defined.

(** ** Registry construction: the successful path *)

Lemma decodes_record w name rec :
  decodes w name rec ->
  set_ID (ID rec) (set_DeviceType (DeviceType rec) (sensor name)) = rec.
Proof. intros (_ & <- & Htemp). destruct rec. cbn in *. now subst. Qed.

Lemma fresh_registry_S n count :
  fresh_registry n (S count) = Some n :: fresh_registry (S n) count.
Proof. reflexivity. Qed.

Lemma LoadDevices_loop_ok w :
  forall names recs, Forall2 (decodes w) names recs ->
  forall i devices h,
    (i + length names <= length devices)%nat ->
    LoadDevices_loop w names i devices h =
      Return (take i devices ++ fresh_registry (length h) (length names)
                ++ drop (i + length names) devices, None)
             (h ++ recs).
Proof.
  induction 1 as [|name rec names recs Hrec _ IH]; intros i devices h Hlen.
  - cbn [LoadDevices_loop length]. unfold ret.
    rewrite Nat.add_0_r, app_nil_r. cbn [fresh_registry seq fmap list_fmap app].
    now rewrite take_drop.
  - cbn [length] in Hlen. cbn [LoadDevices_loop]. unfold bind.
    rewrite newDS1820_decodeIdentity.
    destruct Hrec as (Hdec & Hname & Htemp). rewrite Hdec.
    rewrite (decodes_record w name rec) by (now repeat split).
    cbn [fst snd]. rewrite IH by (rewrite length_insert; lia).
    f_equal.
    + f_equal. unfold ptr in *.
      assert (Hi : <[i:=Some (length h)]> devices !! i = Some (Some (length h)))
        by (apply list_lookup_insert_eq; lia).
      rewrite (take_S_r _ _ _ Hi), take_insert_ge by lia.
      rewrite drop_insert_lt by lia.
      rewrite List.length_app. cbn [length].
      rewrite fresh_registry_S, <- app_assoc. cbn [app].
      replace (S i + length names)%nat with (i + S (length names))%nat by lia.
      now replace (length h + 1)%nat with (S (length h)) by lia.
    + now rewrite <- app_assoc.
Qed.

(** X2. When every enumerated name decodes, [LoadDevices] returns no
    error and one pointer for each name, in the order of the enumeration;
    the pointers address fresh records, appended to the heap in that
    order, each with its name, the id and the type decoded from its
    identifier file, and the zero temperature. *)
Theorem LoadDevices_success (w : World) (h : heap) (names : list string)
    (recs : list DS1820) :
  findDevices w = (names, None) ->
  Forall2 (decodes w) names recs ->
  LoadDevices w h =
    Return (fresh_registry (length h) (length names), None) (h ++ recs).
Proof.
  intros Hfind Hrecs. unfold LoadDevices. rewrite Hfind.
  rewrite (LoadDevices_loop_ok w names recs Hrecs)
    by (rewrite length_replicate; lia).
  cbn [take app]. rewrite drop_ge by (rewrite length_replicate; lia).
  now rewrite app_nil_r.
Qed.

Lemma LoadDevices_success_witness :
  LoadDevices (host ["w1_bus_master1"; "28-0000aabbcc"; "10-000000000001"]
                    [(id_path "28-0000aabbcc", blob_example);
                     (id_path "10-000000000001",
                      bytes [0x10; 0x01; 0x00; 0x00; 0x00; 0x00; 0x00; 0x9c])])
              [sensor "older"]
  = Return ([Some 1%nat; Some 2%nat], None)
      [sensor "older";
       {| ID := 0xAABBCCDDEE0F; Name := "28-0000aabbcc";
          DeviceType := "DS18B20"; LastTemp := 0%float |};
       {| ID := 1; Name := "10-000000000001";
          DeviceType := "DS18S20"; LastTemp := 0%float |}].
Proof.
  apply (LoadDevices_success _ [sensor "older"]
           ["28-0000aabbcc"; "10-000000000001"]
           [{| ID := 0xAABBCCDDEE0F; Name := "28-0000aabbcc";
               DeviceType := "DS18B20"; LastTemp := 0%float |};
            {| ID := 1; Name := "10-000000000001";
               DeviceType := "DS18S20"; LastTemp := 0%float |}]).
  - reflexivity.
  - repeat constructor.
Defined.

(** ** Registry construction: what comes back *)

Lemma LoadDevices_loop_decodes w :
  forall names i devices h devs h',
    LoadDevices_loop w names i devices h = Return (devs, None) h' ->
    exists recs, Forall2 (decodes w) names recs.
Proof.
  induction names as [|name names IH]; intros i devices h devs h' Hloop.
  - exists []. constructor.
  - destruct (decodeIdentity w name) as [[id ty]|e] eqn:Hdec.
    + cbn [LoadDevices_loop] in Hloop. unfold bind in Hloop.
      rewrite newDS1820_decodeIdentity, Hdec in Hloop. cbn [fst snd] in Hloop.
      destruct (IH _ _ _ _ _ Hloop) as (recs & Hrecs).
      exists ({| ID := id; Name := name; DeviceType := ty; LastTemp := 0%float |}
                :: recs).
      constructor; [|exact Hrecs]. now repeat split.
    + rewrite LoadDevices_loop_panics in Hloop; [discriminate|].
      exists name. split; [apply list_elem_of_here|].
      apply decoding_fails_decodeIdentity. now exists e.
Qed.

Lemma LoadDevices_loop_no_error w :
  forall names i devices h devs e h',
    LoadDevices_loop w names i devices h <> Return (devs, Some e) h'.
Proof.
  induction names as [|name names IH]; intros i devices h devs e h' Hloop.
  - discriminate.
  - destruct (decodeIdentity w name) as [[id ty]|e0] eqn:Hdec.
    + cbn [LoadDevices_loop] in Hloop. unfold bind in Hloop.
      rewrite newDS1820_decodeIdentity, Hdec in Hloop. cbn [fst snd] in Hloop.
      exact (IH _ _ _ _ _ _ Hloop).
    + rewrite LoadDevices_loop_panics in Hloop; [discriminate|].
      exists name. split; [apply list_elem_of_here|].
      apply decoding_fails_decodeIdentity. now exists e0.
Qed.

(** X3. The only error that [LoadDevices] ever returns is the one of the
    enumeration, wrapped: it then returns no device and leaves the heap as
    it was. No error about a device is ever returned. *)
Theorem LoadDevices_error_is_enumeration (w : World) (h h' : heap)
    (reg : list ptr) (e : error) :
  LoadDevices w h = Return (reg, Some e) h' ->
  reg = [] /\ h' = h
  /\ exists names e0,
       findDevices w = (names, Some e0)
       /\ e = Errorf "Error finding one wire devices: %v" [opError e0].
Proof.
  unfold LoadDevices. destruct (findDevices w) as [names [e0|]] eqn:Hfind.
  - intros Hret. injection Hret as <- <- <-. repeat split. now exists names, e0.
  - intros Hloop. now apply LoadDevices_loop_no_error in Hloop.
Qed.

Lemma LoadDevices_error_is_enumeration_witness :
  exists names e0,
    findDevices (host ["28-0000aabbcc"] []) = (names, Some e0)
    /\ Errorf "Error finding one wire devices: %v"
         [opError (errorString "files in /sys/bus/w1/devies: no devices found")]
       = Errorf "Error finding one wire devices: %v" [opError e0].
Proof.
  apply (LoadDevices_error_is_enumeration (host ["28-0000aabbcc"] [])
           [sensor "older"] [sensor "older"] []).
  reflexivity.
Defined.

Lemma LoadDevices_inv w h reg h' :
  LoadDevices w h = Return (reg, None) h' ->
  exists names recs,
    findDevices w = (names, None)
    /\ Forall2 (decodes w) names recs
    /\ reg = fresh_registry (length h) (length names)
    /\ h' = h ++ recs.
Proof.
  intros Hloop. unfold LoadDevices in Hloop.
  destruct (findDevices w) as [names [e0|]] eqn:Hfind; [discriminate|].
  destruct (LoadDevices_loop_decodes w _ _ _ _ _ _ Hloop) as (recs & Hrecs).
  rewrite (LoadDevices_loop_ok w names recs Hrecs) in Hloop
    by (rewrite length_replicate; lia).
  cbn [take app] in Hloop.
  rewrite drop_ge, app_nil_r in Hloop by (rewrite length_replicate; lia).
  injection Hloop as <- <-. now exists names, recs.
Qed.

Lemma fresh_registry_lookup n count i :
  (i < count)%nat -> fresh_registry n count !! i = Some (Some (n + i)%nat).
Proof.
  intros Hi. unfold fresh_registry.
  now rewrite list_lookup_fmap, lookup_seq_lt.
Qed.

(** X4. A registry that [LoadDevices] returns follows the enumeration:
    it has one pointer for each name that [findDevices] gives, and the
    pointer at position [i] addresses a record created by this call,
    which carries the name at position [i] and the zero temperature. The
    records that the heap held before the call are untouched. *)
Theorem LoadDevices_follows_enumeration (w : World) (h h' : heap)
    (reg : list ptr) :
  LoadDevices w h = Return (reg, None) h' ->
  exists names,
    findDevices w = (names, None)
    /\ length reg = length names
    /\ (forall i name, names !! i = Some name ->
          exists a rec,
            reg !! i = Some (Some a) /\ (length h <= a)%nat
            /\ h' !! a = Some rec
            /\ Name rec = name /\ LastTemp rec = 0%float)
    /\ (forall a, (a < length h)%nat -> h' !! a = h !! a).
Proof.
  intros Hload.
  destruct (LoadDevices_inv w h reg h' Hload) as (names & recs & Hfind & Hrecs & -> & ->).
  exists names. split; [exact Hfind|]. split; [|split].
  - unfold fresh_registry. now rewrite length_fmap, length_seq.
  - intros i name Hname.
    destruct (Forall2_lookup_l _ _ _ _ _ Hrecs Hname) as (rec & Hrec & _ & Hn & Ht).
    exists (length h + i)%nat, rec.
    split; [apply fresh_registry_lookup; eapply lookup_lt_Some; eassumption|].
    split; [lia|]. split; [|now split].
    rewrite lookup_app_r by lia.
    now replace (length h + i - length h)%nat with i by lia.
  - intros a Ha. now apply lookup_app_l.
Qed.

Lemma LoadDevices_follows_enumeration_witness :
  exists names,
    findDevices (host ["w1_bus_master1"; "28-0000aabbcc"]
                      [(id_path "28-0000aabbcc", blob_example)])
    = (names, None)
    /\ length [Some 1%nat] = length names.
Proof.
  destruct (LoadDevices_follows_enumeration
              (host ["w1_bus_master1"; "28-0000aabbcc"]
                    [(id_path "28-0000aabbcc", blob_example)])
              [sensor "older"]
              [sensor "older";
               {| ID := 0xAABBCCDDEE0F; Name := "28-0000aabbcc";
                  DeviceType := "DS18B20"; LastTemp := 0%float |}]
              [Some 1%nat] eq_refl) as (names & Hfind & Hlen & _).
  now exists names.
Defined.

Lemma decodeIdentity_invariant w name id ty :
  decodeIdentity w name = Ok (id, ty) ->
  (ty = "DS18B20" \/ ty = "DS18S20") /\ 0 <= id < 2 ^ 48.
Proof.
  unfold decodeIdentity. intros Hdec.
  destruct (open_file w (id_path name)) as [content|]; [|discriminate].
  destruct (binary_Read_uint64 content) as [value|]; [|discriminate].
  assert (Hid : 0 <= Z.shiftr (Z.land value 0x00ffffffffffff00) 8 < 2 ^ 48).
  { replace value with (value mod 256 + 256 * (value / 256))
      by (pose proof (Z.div_mod value 256); lia).
    rewrite serial_bits by (apply Z.mod_pos_bound; lia).
    apply Z.mod_pos_bound. lia. }
  destruct (Z.land value 255 =? modelDS18B20).
  - injection Hdec as <- <-. split; [now left|exact Hid].
  - destruct (Z.land value 255 =? modelDS18S20); [|discriminate].
    injection Hdec as <- <-. split; [now right|exact Hid].
Qed.

(** X5. Every record of a registry that [LoadDevices] returns has one of
    the two device types, DS18B20 or DS18S20, and an id of 48 bits. *)
Theorem LoadDevices_device_invariant (w : World) (h h' : heap) (reg : list ptr)
    (p : ptr) :
  LoadDevices w h = Return (reg, None) h' ->
  p ∈ reg ->
  exists a rec,
    p = Some a /\ h' !! a = Some rec
    /\ (DeviceType rec = "DS18B20" \/ DeviceType rec = "DS18S20")
    /\ 0 <= ID rec < 2 ^ 48.
Proof.
  intros Hload Hin.
  destruct (LoadDevices_inv w h reg h' Hload) as (names & recs & Hfind & Hrecs & -> & ->).
  apply list_elem_of_lookup in Hin as (i & Hi).
  assert (Hlt : (i < length names)%nat).
  { apply lookup_lt_Some in Hi. unfold fresh_registry in Hi.
    now rewrite length_fmap, length_seq in Hi. }
  rewrite fresh_registry_lookup in Hi by exact Hlt. injection Hi as <-.
  destruct (lookup_lt_is_Some_2 names i Hlt) as (name & Hname).
  destruct (Forall2_lookup_l _ _ _ _ _ Hrecs Hname) as (rec & Hrec & Hdec & _).
  exists (length h + i)%nat, rec. split; [reflexivity|]. split.
  - rewrite lookup_app_r by lia.
    now replace (length h + i - length h)%nat with i by lia.
  - exact (decodeIdentity_invariant w name _ _ Hdec).
Qed.

Lemma LoadDevices_device_invariant_witness :
  exists a rec,
    Some 1%nat = Some a
    /\ [sensor "older";
        {| ID := 0xAABBCCDDEE0F; Name := "28-0000aabbcc";
           DeviceType := "DS18B20"; LastTemp := 0%float |}] !! a = Some rec
    /\ (DeviceType rec = "DS18B20" \/ DeviceType rec = "DS18S20")
    /\ 0 <= ID rec < 2 ^ 48.
Proof.
  apply (LoadDevices_device_invariant
           (host ["w1_bus_master1"; "28-0000aabbcc"]
                 [(id_path "28-0000aabbcc", blob_example)])
           [sensor "older"] _ [Some 1%nat]).
  - reflexivity.
  - apply list_elem_of_here.
Defined.

(** ** Reading: panics and frame *)

Lemma same_devices_length h h' : same_devices h h' -> length h' = length h.
Proof.
  intros Hsame. apply Nat.le_antisymm.
  - destruct (Hsame (length h)) as [[Hn' _]|(dev & t & Hh & _)].
    + now apply lookup_ge_None in Hn'.
    + apply lookup_lt_Some in Hh. lia.
  - destruct (Hsame (length h')) as [[_ Hn]|(dev & t & _ & Hh')].
    + now apply lookup_ge_None in Hn.
    + apply lookup_lt_Some in Hh'. lia.
Qed.

Lemma ReadDevices_valid_returns w reg :
  forall h, valid_registry reg h -> exists r h', ReadDevices w reg h = Return r h'.
Proof.
  induction reg as [|p reg IH]; intros h Hvalid.
  - now exists None, h.
  - destruct (Hvalid p (list_elem_of_here _ _)) as (a & -> & Ha).
    destruct (lookup_lt_is_Some_2 h a Ha) as (dev & Hdev).
    destruct (ReadDevices_body_frame w a h dev Hdev) as (r & t & Hbody).
    rewrite ReadDevices_cons, Hbody. destruct r as [e|]; [now eexists _, _|].
    apply IH. intros q Hq.
    destruct (Hvalid q (list_elem_of_further _ _ _ Hq)) as (b & -> & Hb).
    exists b. split; [reflexivity|]. now rewrite length_insert.
Qed.

(** X6. [ReadDevices] panics only on a pointer that is nil or dangling:
    on a registry whose pointers all address records of the heap it
    returns, with or without an error, whatever the host holds. *)
Theorem ReadDevices_returns_on_valid_registry (w : World) (reg : list ptr)
    (h : heap) :
  valid_registry reg h ->
  ReadDevices w reg h <> Panic.
Proof.
  intros Hvalid. destruct (ReadDevices_valid_returns w reg h Hvalid) as (r & h' & Hret).
  now rewrite Hret.
Qed.

Lemma ReadDevices_returns_on_valid_registry_witness :
  ReadDevices (host [] []) [Some 0%nat; Some 0%nat] [sensor "28-0000aabbcc"]
  <> Panic.
Proof.
  apply ReadDevices_returns_on_valid_registry.
  intros p Hp. exists 0%nat. split; [|cbn [length]; lia].
  apply elem_of_cons in Hp as [->|Hp]; [reflexivity|].
  apply elem_of_cons in Hp as [->|Hp]; [reflexivity|].
  now apply elem_of_nil in Hp.
Defined.

(** X7. A registry that [LoadDevices] returns holds distinct pointers,
    each to a record of the heap it leaves, so that [ReadDevices] can be
    run on that registry, on any host, without panic. *)
Theorem LoadDevices_then_ReadDevices (w : World) (h h' : heap) (reg : list ptr) :
  LoadDevices w h = Return (reg, None) h' ->
  NoDup reg
  /\ valid_registry reg h'
  /\ forall w', exists r h'', ReadDevices w' reg h' = Return r h''.
Proof.
  intros Hload.
  destruct (LoadDevices_inv w h reg h' Hload) as (names & recs & _ & Hrecs & -> & ->).
  assert (Hvalid : valid_registry (fresh_registry (length h) (length names)) (h ++ recs)).
  { intros p Hp. unfold fresh_registry in Hp.
    apply list_elem_of_fmap in Hp as (a & -> & Ha). apply elem_of_seq in Ha.
    exists a. split; [reflexivity|].
    rewrite List.length_app, <- (Forall2_length _ _ _ Hrecs). lia. }
  split; [|split].
  - unfold fresh_registry. apply NoDup_fmap_2; [|apply NoDup_seq].
    intros x y Hxy. now injection Hxy.
  - exact Hvalid.
  - intros w'. now apply ReadDevices_valid_returns.
Qed.

Lemma LoadDevices_then_ReadDevices_witness :
  NoDup [Some 1%nat]
  /\ valid_registry [Some 1%nat]
       [sensor "older";
        {| ID := 0xAABBCCDDEE0F; Name := "28-0000aabbcc";
           DeviceType := "DS18B20"; LastTemp := 0%float |}]
  /\ forall w', exists r h'',
       ReadDevices w' [Some 1%nat]
         [sensor "older";
          {| ID := 0xAABBCCDDEE0F; Name := "28-0000aabbcc";
             DeviceType := "DS18B20"; LastTemp := 0%float |}]
       = Return r h''.
Proof.
  apply (LoadDevices_then_ReadDevices
           (host ["w1_bus_master1"; "28-0000aabbcc"]
                 [(id_path "28-0000aabbcc", blob_example)])
           [sensor "older"]).
  reflexivity.
Defined.

(** X8. Whatever it returns, [ReadDevices] keeps the size of the heap and
    the id, the name and the type of every record: it writes
    temperatures only. A record that no pointer of the registry addresses
    keeps its temperature too. *)
Theorem ReadDevices_writes_temperatures_only (w : World) (reg : list ptr)
    (h h' : heap) (r : option error) :
  ReadDevices w reg h = Return r h' ->
  length h' = length h
  /\ (forall a dev, h !! a = Some dev ->
        exists dev', h' !! a = Some dev'
          /\ ID dev' = ID dev /\ Name dev' = Name dev
          /\ DeviceType dev' = DeviceType dev)
  /\ (forall a, Some a ∉ reg -> h' !! a = h !! a).
Proof.
  intros Hret. destruct (ReadDevices_same w reg h r h' Hret) as [Hsame Hother].
  split; [now apply same_devices_length|]. split; [|exact Hother].
  intros a dev Hdev.
  destruct (Hsame a) as [[_ Hnone]|(dev0 & t & Ha & Ha')]; [congruence|].
  rewrite Hdev in Ha. injection Ha as <-.
  exists (set_LastTemp t dev). now repeat split.
Qed.

Lemma ReadDevices_writes_temperatures_only_witness :
  length [set_LastTemp (celsius 23562) (sensor "28-0000aabbcc"); sensor "other"]
  = length [sensor "28-0000aabbcc"; sensor "other"].
Proof.
  apply (ReadDevices_writes_temperatures_only
           (host [] [(w1_slave_path "28-0000aabbcc", status_good)])
           [Some 0%nat] [sensor "28-0000aabbcc"; sensor "other"] _ None).
  reflexivity.
Defined.

(** ** Reading twice *)

(** What a scan returns and the samples it stores depend on the lines
    only, not on the heap. *)
Lemma scan_loop_summary lines :
  forall i, exists r vs,
    Forall (fun v => 0 <= v < 2 ^ 63) vs
    /\ forall a h dev, h !! a = Some dev ->
         scan_loop (Some a) i lines h = Return r (after_samples a dev vs h).
Proof.
  induction lines as [|line lines IH]; intros i.
  - exists None, []. split; [constructor|]. reflexivity.
  - assert (Hstop : forall (e : error), exists r vs,
              Forall (fun v => 0 <= v < 2 ^ 63) vs
              /\ forall a (h : heap) dev, h !! a = Some dev ->
                   @ret (option error) (Some e) h = Return r (after_samples a dev vs h)).
    { intros e. exists (Some e), []. split; [constructor|]. reflexivity. }
    cbn [scan_loop]. destruct (i =? 0)%nat.
    + destruct (FindStringSubmatch _CrcCheckRegex line) as [[m0 m1]|];
        [|exact (IH (S i))].
      destruct (negb (m1 =? "YES")%string); [apply Hstop|exact (IH (S i))].
    + destruct (FindStringSubmatch _TestSampleRegex line) as [[m0 m1]|] eqn:Hm;
        [|apply Hstop].
      destruct (strconv_ParseInt m1) as [v [e|]] eqn:Hparse; [apply Hstop|].
      destruct (IH (S i)) as (r & vs & Hvs & Hscan).
      exists r, (v :: vs). split.
      * constructor; [|exact Hvs].
        destruct (FindStringSubmatch_sample_digits line m0 m1 Hm) as [Hne Hds].
        destruct (strconv_ParseInt_digits m1 Hne Hds) as [(v' & Hok & Hv')|Hrange];
          congruence.
      * intros a h dev Hdev. unfold bind. rewrite (store_Some _ _ _ _ Hdev).
        rewrite (Hscan a _ (set_LastTemp (celsius v) dev))
          by (apply list_lookup_insert_eq; eapply lookup_lt_Some; eassumption).
        now rewrite after_samples_cons.
Qed.

Lemma ReadDevices_body_summary w name :
  exists r vs,
    Forall (fun v => 0 <= v < 2 ^ 63) vs
    /\ forall a h dev, h !! a = Some dev -> Name dev = name ->
         ReadDevices_body w (Some a) h = Return r (after_samples a dev vs h).
Proof.
  destruct (open_file w (w1_slave_path name)) as [content|e] eqn:Hopen.
  - destruct (scan_loop_summary (scanner_tokens content) 0) as (r & vs & Hvs & Hscan).
    exists r, vs. split; [exact Hvs|]. intros a h dev Hdev <-.
    rewrite (ReadDevices_body_tokens w a dev content h Hdev Hopen). now apply Hscan.
  - exists (Some e), []. split; [constructor|]. intros a h dev Hdev <-.
    unfold ReadDevices_body.
    rewrite (bind_Return _ _ _ _ _ (load_Some _ _ _ Hdev)). now rewrite Hopen.
Qed.

Lemma after_samples_same a dev t vs h g :
  h !! a = Some dev -> g !! a = Some (set_LastTemp t dev) -> same_devices h g ->
  same_devices (after_samples a dev vs h) (after_samples a (set_LastTemp t dev) vs g)
  /\ forall b,
       after_samples a (set_LastTemp t dev) vs g !! b = after_samples a dev vs h !! b
       \/ (after_samples a (set_LastTemp t dev) vs g !! b = g !! b
           /\ after_samples a dev vs h !! b = h !! b).
Proof.
  intros Hh Hg Hsame. unfold after_samples. destruct (last vs) as [v|].
  - assert (Hlh : (a < length h)%nat) by (eapply lookup_lt_Some; eassumption).
    assert (Hlg : (a < length g)%nat) by (eapply lookup_lt_Some; eassumption).
    split.
    + intros b. destruct (decide (a = b)) as [<-|Hne].
      * right. exists (set_LastTemp (celsius v) dev), (celsius v).
        now rewrite !list_lookup_insert_eq.
      * rewrite !list_lookup_insert_ne by exact Hne. apply Hsame.
    + intros b. destruct (decide (a = b)) as [<-|Hne].
      * left. now rewrite !list_lookup_insert_eq.
      * right. now rewrite !list_lookup_insert_ne.
  - split; [exact Hsame|]. intros b. now right.
Qed.

Lemma ReadDevices_rerun w reg :
  forall h g r h',
    same_devices h g ->
    ReadDevices w reg h = Return r h' ->
    exists g',
      ReadDevices w reg g = Return r g'
      /\ forall b, g' !! b = h' !! b \/ (g' !! b = g !! b /\ h' !! b = h !! b).
Proof.
  induction reg as [|p reg IH]; intros h g r h' Hsame Hret.
  - injection Hret as <- <-. exists g. split; [reflexivity|]. intros b. now right.
  - rewrite ReadDevices_cons in Hret.
    destruct (ReadDevices_body w p h) as [r1 h1|] eqn:Hbody; [|discriminate].
    destruct (ReadDevices_body_valid w p h _ _ Hbody) as (a & dev & -> & Hdev).
    destruct (Hsame a) as [[_ Hnone]|(dev0 & t & Ha & Hg)]; [congruence|].
    rewrite Hdev in Ha. injection Ha as <-.
    destruct (ReadDevices_body_summary w (Name dev)) as (r0 & vs & _ & Hsum).
    rewrite (Hsum a h dev Hdev eq_refl) in Hbody. injection Hbody as <- <-.
    destruct (after_samples_same a dev t vs h g Hdev Hg Hsame) as [Hsame1 Hpair].
    rewrite ReadDevices_cons, (Hsum a g _ Hg eq_refl).
    destruct r0 as [e|].
    + injection Hret as <- <-. eexists. split; [reflexivity|exact Hpair].
    + destruct (IH _ _ r h' Hsame1 Hret) as (g' & Hg' & Hrel).
      exists g'. split; [exact Hg'|]. intros b.
      destruct (Hrel b) as [Heq|[Hgb Hhb]]; [now left|].
      destruct (Hpair b) as [Heq1|[Hg1 Hh1]].
      * left. congruence.
      * right. split; congruence.
Qed.

(** X9. Reading twice from a host that has not changed gives the second
    time what it gave the first time: the same result, error or not, and
    the heap that the first call left. *)
Theorem ReadDevices_idempotent (w : World) (reg : list ptr) (h h' : heap)
    (r : option error) :
  ReadDevices w reg h = Return r h' ->
  ReadDevices w reg h' = Return r h'.
Proof.
  intros Hret. destruct (ReadDevices_same w reg h r h' Hret) as [Hsame _].
  destruct (ReadDevices_rerun w reg h h' r h' Hsame Hret) as (g' & Hg' & Hrel).
  rewrite Hg'. f_equal. apply list_eq. intros b.
  destruct (Hrel b) as [Heq|[Heq _]]; exact Heq.
Qed.

Lemma ReadDevices_idempotent_witness :
  ReadDevices (host [] [(w1_slave_path "28-0000000001", status_good);
                        (w1_slave_path "28-0000000002", status_three_lines)])
              [Some 0%nat; Some 1%nat]
              [set_LastTemp (celsius 23562) (sensor "28-0000000001");
               set_LastTemp (celsius 22687) (sensor "28-0000000002")]
  = Return (Some (Errorf "EOF without data from w1" []))
           [set_LastTemp (celsius 23562) (sensor "28-0000000001");
            set_LastTemp (celsius 22687) (sensor "28-0000000002")].
Proof.
  apply (ReadDevices_idempotent _ _ [sensor "28-0000000001"; sensor "28-0000000002"]).
  reflexivity.
Defined.

(** ** Reading: the errors and the values *)

(** X10. An error that [ReadDevices] returns is one of four: the error of
    the host for a status file that does not open, the CRC mismatch, the
    EOF-without-data error, or the range error of [strconv.ParseInt] for a
    run of digits. *)
Theorem ReadDevices_errors (w : World) (reg : list ptr) (h h' : heap) (e : error) :
  ReadDevices w reg h = Return (Some e) h' ->
  (exists name, open_file w (w1_slave_path name) = Failed e)
  \/ e = Errorf "CRC mismatch on read" []
  \/ e = Errorf "EOF without data from w1" []
  \/ exists m1,
       m1 <> "" /\ string_forall is_digit m1 = true
       /\ e = NumError "ParseInt" m1 strconv_ErrRange.
Proof.
  intros Hret.
  destruct (ReadDevices_failure_split w reg h e h' Hret)
    as (pre & p & post & h1 & _ & _ & Hbody).
  destruct (ReadDevices_body_valid w p h1 _ _ Hbody) as (k & dev & -> & Hdev).
  destruct (ReadDevices_body_failure w k dev h1 e h' Hdev Hbody)
    as [[Hopen _]
       |[(content & l0 & rest & m0 & m1 & _ & _ & _ & _ & -> & _)
        |(content & l0 & good & vs & bad & rest & _ & _ & _ & _ & Hbad & _)]].
  - left. now exists (Name dev).
  - right. now left.
  - destruct Hbad as [[_ ->]|(m0 & m1 & v & Hm & Hparse)]; [right; right; now left|].
    right. right. right. exists m1.
    destruct (FindStringSubmatch_sample_digits bad m0 m1 Hm) as [Hne Hds].
    split; [exact Hne|]. split; [exact Hds|].
    destruct (strconv_ParseInt_digits m1 Hne Hds) as [(v' & Hok & _)|Hrange];
      congruence.
Qed.

Lemma ReadDevices_errors_witness :
  (exists name,
     open_file (host [] [(w1_slave_path "28-0000aabbcc", status_crc_NO)])
               (w1_slave_path name)
     = Failed (Errorf "CRC mismatch on read" []))
  \/ Errorf "CRC mismatch on read" [] = Errorf "CRC mismatch on read" []
  \/ Errorf "CRC mismatch on read" [] = Errorf "EOF without data from w1" []
  \/ exists m1,
       m1 <> "" /\ string_forall is_digit m1 = true
       /\ Errorf "CRC mismatch on read" [] = NumError "ParseInt" m1 strconv_ErrRange.
Proof.
  apply (ReadDevices_errors _ [Some 0%nat] [sensor "28-0000aabbcc"]
           [sensor "28-0000aabbcc"]).
  reflexivity.
Defined.

Lemma after_samples_range a dev vs h :
  Forall (fun v => 0 <= v < 2 ^ 63) vs -> h !! a = Some dev ->
  forall b rec, h !! b = Some rec ->
    after_samples a dev vs h !! b = Some rec
    \/ exists v, 0 <= v < 2 ^ 63
         /\ after_samples a dev vs h !! b = Some (set_LastTemp (celsius v) rec).
Proof.
  intros Hvs Hdev b rec Hrec. unfold after_samples.
  destruct (last vs) as [v|] eqn:Hlast; [|now left].
  destruct (decide (a = b)) as [<-|Hne].
  - right. exists v. split.
    + rewrite Forall_forall in Hvs. apply Hvs. eapply last_Some_elem_of, Hlast.
    + rewrite Hdev in Hrec. injection Hrec as <-.
      apply list_lookup_insert_eq. eapply lookup_lt_Some; eassumption.
  - left. now rewrite list_lookup_insert_ne.
Qed.

(** X11. [ReadDevices] never stores a negative sample: after the call,
    with or without error, each record is what it was, or holds
    [float64(v) / 1000] for an integer [v] of [0, 2^63). *)
Theorem ReadDevices_stores_unsigned_samples (w : World) (reg : list ptr) :
  forall (h h' : heap) (r : option error),
    ReadDevices w reg h = Return r h' ->
    forall a dev, h !! a = Some dev ->
      h' !! a = Some dev
      \/ exists v, 0 <= v < 2 ^ 63 /\ h' !! a = Some (set_LastTemp (celsius v) dev).
Proof.
  induction reg as [|p reg IH]; intros h h' r Hret b rec Hrec.
  - injection Hret as <- <-. now left.
  - rewrite ReadDevices_cons in Hret.
    destruct (ReadDevices_body w p h) as [r1 h1|] eqn:Hbody; [|discriminate].
    destruct (ReadDevices_body_valid w p h _ _ Hbody) as (a & dev & -> & Hdev).
    destruct (ReadDevices_body_summary w (Name dev)) as (r0 & vs & Hvs & Hsum).
    rewrite (Hsum a h dev Hdev eq_refl) in Hbody. injection Hbody as <- <-.
    pose proof (after_samples_range a dev vs h Hvs Hdev b rec Hrec) as Hfirst.
    destruct r0 as [e|]; [now injection Hret as <- <-|].
    destruct Hfirst as [Hsame|(v & Hv & Hstored)].
    + exact (IH _ _ _ Hret b rec Hsame).
    + destruct (IH _ _ _ Hret b _ Hstored) as [Hkeep|(v' & Hv' & Hagain)].
      * right. now exists v.
      * right. now exists v'.
Qed.

Lemma ReadDevices_stores_unsigned_samples_witness :
  [set_LastTemp (celsius 23562) (sensor "28-0000aabbcc")] !! 0%nat
  = Some (sensor "28-0000aabbcc")
  \/ exists v, 0 <= v < 2 ^ 63
       /\ [set_LastTemp (celsius 23562) (sensor "28-0000aabbcc")] !! 0%nat
          = Some (set_LastTemp (celsius v) (sensor "28-0000aabbcc")).
Proof.
  apply (ReadDevices_stores_unsigned_samples
           (host [] [(w1_slave_path "28-0000aabbcc", status_good)])
           [Some 0%nat] [sensor "28-0000aabbcc"] _ None);
    reflexivity.
Defined.

(** ** Reading: the bound of the field *)




(** ** Reading: a first line without marker *)

Lemma rmatch_Cat_eq {R : Type} r1 r2 s g (k : string -> option string -> option R) :
  rmatch (Cat r1 r2) s g k = rmatch r1 s g (fun s1 g1 => rmatch r2 s1 g1 k).
Proof. reflexivity. Qed.

Lemma FindStringSubmatch_crc_occurs line m0 m1 :
  FindStringSubmatch _CrcCheckRegex line = Some (m0, m1) ->
  occurs_in "crc=" line.
Proof.
  assert (Hhere : forall s rest g,
            match_here _CrcCheckRegex s = Some (rest, g) ->
            exists post, s = "crc=" +:+ post).
  { intros s rest g Hm. unfold match_here, _CrcCheckRegex in Hm.
    rewrite rmatch_Cat_eq in Hm.
    apply rmatch_Str in Hm as (s' & -> & _). now exists s'. }
  induction line as [|c line IH]; cbn [FindStringSubmatch].
  - destruct (match_here _CrcCheckRegex "") as [[rest g]|] eqn:Hm; [|discriminate].
    destruct (Hhere _ _ _ Hm) as (post & Hpost). discriminate.
  - destruct (match_here _CrcCheckRegex (String c line)) as [[rest g]|] eqn:Hm.
    + intros _. destruct (Hhere _ _ _ Hm) as (post & Hpost).
      exists "", post. exact Hpost.
    + intros Hfind. destruct (IH Hfind) as (pre & post & ->).
      now exists (String c pre), post.
Qed.

(** X13. The CRC gate lets pass a first line that holds no marker: when
    [crc=] does not occur in the first line, whatever that line is, the
    samples of the later lines are stored and the call goes on with the
    next device. *)
Theorem ReadDevices_without_marker (w : World) (h : heap) (a : nat)
    (dev : DS1820) (d : list ptr) (content l0 : string) (good : list string)
    (vs : list Z) :
  h !! a = Some dev ->
  open_file w (w1_slave_path (Name dev)) = Ok content ->
  scanner_tokens content = l0 :: good ->
  ~ occurs_in "crc=" l0 ->
  Forall2 line_sample good vs ->
  ReadDevices w (Some a :: d) h = ReadDevices w d (after_samples a dev vs h).
Proof.
  intros Hdev Hopen Htok Hno Hgood.
  assert (Hcrc : crc_passes l0).
  { unfold crc_passes.
    destruct (FindStringSubmatch _CrcCheckRegex l0) as [[m0 m1]|] eqn:Hm; [|exact I].
    contradiction Hno. exact (FindStringSubmatch_crc_occurs l0 m0 m1 Hm). }
  rewrite ReadDevices_cons.
  rewrite (ReadDevices_body_tokens w a dev content h Hdev Hopen), Htok.
  rewrite (scan_crc_pass _ _ _ _ Hcrc).
  rewrite <- (app_nil_r good).
  now rewrite (scan_samples a good vs Hgood dev h 0%nat [] Hdev).
Qed.

Lemma ReadDevices_without_marker_witness :
  ReadDevices (host [] [(w1_slave_path "28-0000aabbcc", status_no_marker)])
              [Some 0%nat] [sensor "28-0000aabbcc"]
  = Return None [set_LastTemp (celsius 23562) (sensor "28-0000aabbcc")].
Proof.
  rewrite (ReadDevices_without_marker
    (host [] [(w1_slave_path "28-0000aabbcc", status_no_marker)])
    [sensor "28-0000aabbcc"] 0 (sensor "28-0000aabbcc") _ status_no_marker
    "23 01 4b 46 7f ff 0c 10 45" ["23 01 4b 46 7f ff 0c 10 45 t=23562"] [23562]);
    try reflexivity.
  - intros Hocc. apply strings_Contains_occurs in Hocc. discriminate.
  - repeat constructor. eexists _, _. split; reflexivity.
Defined.

(** ** Reading: the successful path *)

Lemma line_sample_functional line v v' :
  line_sample line v -> line_sample line v' -> v = v'.
Proof.
  intros (m0 & m1 & Hm & Hp) (m0' & m1' & Hm' & Hp').
  rewrite Hm in Hm'. injection Hm' as _ <-. congruence.
Qed.

Lemma reads_as_Name w dev dev' v :
  Name dev' = Name dev -> reads_as w dev v -> reads_as w dev' v.
Proof. unfold reads_as. now intros ->. Qed.

Lemma ReadDevices_body_reads w a dev v h :
  h !! a = Some dev -> reads_as w dev v ->
  ReadDevices_body w (Some a) h =
    Return None (<[a := set_LastTemp (celsius v) dev]> h).
Proof.
  intros Hdev (content & l0 & good & vs & Hopen & Htok & Hcrc & Hgood & Hlast).
  rewrite (ReadDevices_body_tokens w a dev content h Hdev Hopen), Htok.
  rewrite (scan_crc_pass _ _ _ _ Hcrc), <- (app_nil_r good).
  rewrite (scan_samples a good vs Hgood dev h 0%nat [] Hdev).
  unfold after_samples. now rewrite Hlast.
Qed.

Lemma ReadDevices_all_readable w reg :
  forall h,
    (forall p, p ∈ reg ->
       exists a dev v, p = Some a /\ h !! a = Some dev /\ reads_as w dev v) ->
    exists h', ReadDevices w reg h = Return None h'.
Proof.
  induction reg as [|p reg IH]; intros h Hall.
  - now exists h.
  - destruct (Hall p (list_elem_of_here _ _)) as (a & dev & v & -> & Hdev & Hreads).
    rewrite ReadDevices_cons, (ReadDevices_body_reads w a dev v h Hdev Hreads).
    apply IH. intros q Hq.
    destruct (Hall q (list_elem_of_further _ _ _ Hq)) as (b & devb & vb & -> & Hb & Hrb).
    destruct (decide (a = b)) as [<-|Hne].
    + exists a, (set_LastTemp (celsius v) dev), vb. split; [reflexivity|]. split.
      * apply list_lookup_insert_eq. eapply lookup_lt_Some; eassumption.
      * rewrite Hdev in Hb. injection Hb as <-.
        now apply (reads_as_Name w dev).
    + exists b, devb, vb. split; [reflexivity|]. split; [|exact Hrb].
      now rewrite list_lookup_insert_ne.
Qed.

(** X14. When the status file of every device of a registry of distinct
    records opens, passes the CRC gate and carries a sample on each later
    line, [ReadDevices] returns no error and every device holds the
    sample of the last line of its file. *)
Theorem ReadDevices_reads_all (w : World) (reg : list ptr) (h : heap) :
  NoDup reg ->
  (forall p, p ∈ reg ->
     exists a dev v, p = Some a /\ h !! a = Some dev /\ reads_as w dev v) ->
  exists h',
    ReadDevices w reg h = Return None h'
    /\ forall a dev v,
         Some a ∈ reg -> h !! a = Some dev -> reads_as w dev v ->
         h' !! a = Some (set_LastTemp (celsius v) dev).
Proof.
  intros Hnodup Hall.
  destruct (ReadDevices_all_readable w reg h Hall) as (h' & Hret).
  exists h'. split; [exact Hret|].
  intros a dev v Hin Hdev (content & l0 & good & vs & Hopen & Htok & Hcrc & Hgood & Hlast).
  assert (Hne : good <> []).
  { intros ->. apply Forall2_nil_inv_l in Hgood. subst vs. discriminate. }
  assert (Hlen : (2 <= length (scanner_tokens content))%nat).
  { rewrite Htok. destruct good; [contradiction|]. cbn [length]. lia. }
  destruct (ReadDevices_success_last w reg h h' Hnodup Hret a dev content
              Hin Hdev Hopen Hlen) as (line & v0 & Hline & Hsample & Hstored).
  rewrite Hstored. do 2 f_equal. f_equal.
  rewrite Htok in Hline. destruct good as [|l1 good]; [contradiction|].
  rewrite last_cons_cons in Hline.
  pose proof (Forall2_last _ _ _ Hgood) as Hlasts.
  rewrite Hline, Hlast in Hlasts. inversion Hlasts as [x y Hxy|]; subst.
  exact (line_sample_functional line v0 v Hsample Hxy).
Qed.

Lemma ReadDevices_reads_all_witness :
  exists h',
    ReadDevices (host [] [(w1_slave_path "28-0000000001", status_good);
                          (w1_slave_path "28-0000000002", status_no_marker)])
                [Some 1%nat; Some 0%nat]
                [sensor "28-0000000001"; sensor "28-0000000002"]
    = Return None h'.
Proof.
  destruct (ReadDevices_reads_all
              (host [] [(w1_slave_path "28-0000000001", status_good);
                        (w1_slave_path "28-0000000002", status_no_marker)])
              [Some 1%nat; Some 0%nat]
              [sensor "28-0000000001"; sensor "28-0000000002"])
    as (h' & Hret & _).
  - apply (bool_decide_unpack _). reflexivity.
  - intros p Hp.
    apply elem_of_cons in Hp as [->|Hp];
      [|apply elem_of_cons in Hp as [->|Hp]; [|now apply elem_of_nil in Hp]].
    + exists 1%nat, (sensor "28-0000000002"), 23562.
      split; [reflexivity|]. split; [reflexivity|].
      exists status_no_marker, "23 01 4b 46 7f ff 0c 10 45",
        ["23 01 4b 46 7f ff 0c 10 45 t=23562"], [23562].
      repeat split; try reflexivity.
      repeat constructor. eexists _, _. split; reflexivity.
    + exists 0%nat, (sensor "28-0000000001"), 23562.
      split; [reflexivity|]. split; [reflexivity|].
      exists status_good, "23 01 4b 46 7f ff 0c 10 45 : crc=1a YES",
        ["23 01 4b 46 7f ff 0c 10 45 t=23562"], [23562].
      repeat split; try reflexivity.
      repeat constructor. eexists _, _. split; reflexivity.
  - now exists h'.
Defined.

(** ** Identity decoding: frame and bytes *)

(** X15. [getID] touches one record at most. On an error the heap is
    left as it was, type and id included; on success only the type and
    the id of the record are written, its name and its temperature stay,
    and no other record changes. *)
Theorem getID_frame (w : World) (a : nat) (h h' : heap) (dev : DS1820)
    (r : option error) :
  h !! a = Some dev ->
  getID w (Some a) h = Return r h' ->
  (forall e, r = Some e -> h' = h)
  /\ (exists dev', h' !! a = Some dev'
        /\ Name dev' = Name dev /\ LastTemp dev' = LastTemp dev)
  /\ (forall b, b <> a -> h' !! b = h !! b)
  /\ length h' = length h.
Proof.
  intros Hdev. rewrite (getID_decodeIdentity w h a dev Hdev).
  destruct (decodeIdentity w (Name dev)) as [[id ty]|e0]; intros Hret;
    injection Hret as <- <-.
  - split; [discriminate|]. split; [|split].
    + eexists. split; [apply list_lookup_insert_eq; eapply lookup_lt_Some; eassumption|].
      now split.
    + intros b Hb. now apply list_lookup_insert_ne.
    + apply length_insert.
  - split; [reflexivity|]. split; [now exists dev|]. split; reflexivity.
Qed.

Lemma getID_frame_witness :
  exists dev',
    [{| ID := 0xAABBCCDDEE0F; Name := "28-0000aabbcc";
        DeviceType := "DS18B20"; LastTemp := celsius 23562 |}] !! 0%nat = Some dev'
    /\ Name dev' = Name (set_LastTemp (celsius 23562) (sensor "28-0000aabbcc"))
    /\ LastTemp dev' = LastTemp (set_LastTemp (celsius 23562) (sensor "28-0000aabbcc")).
Proof.
  apply (getID_frame (host [] [(id_path "28-0000aabbcc", blob_example)]) 0
           [set_LastTemp (celsius 23562) (sensor "28-0000aabbcc")] _
           (set_LastTemp (celsius 23562) (sensor "28-0000aabbcc")) None);
    reflexivity.
Defined.

(** X16. The id that [getID] stores is the number that the second to the
    seventh byte of the identifier file spell, low byte first. The family
    code, the eighth byte (the CRC of the identifier) and whatever follows
    the eighth byte take no part in it. *)
Theorem getID_serial_bytes (w : World) (h : heap) (a : nat) (dev : DS1820)
    (c0 c1 c2 c3 c4 c5 c6 c7 : ascii) (tail : string) :
  h !! a = Some dev ->
  open_file w (id_path (Name dev)) =
    Ok (String c0 (String c1 (String c2 (String c3
       (String c4 (String c5 (String c6 (String c7 tail)))))))) ->
  byte_val c0 = 0x28 \/ byte_val c0 = 0x10 ->
  exists dev',
    getID w (Some a) h = Return None (<[a := dev']> h)
    /\ ID dev' =
         byte_val c1 + 2 ^ 8 * byte_val c2 + 2 ^ 16 * byte_val c3
         + 2 ^ 24 * byte_val c4 + 2 ^ 32 * byte_val c5 + 2 ^ 40 * byte_val c6
    /\ DeviceType dev' = (if byte_val c0 =? 0x28 then "DS18B20" else "DS18S20")
    /\ Name dev' = Name dev /\ LastTemp dev' = LastTemp dev.
Proof.
  intros Hdev Hopen Hfamily.
  pose proof (byte_val_range c0) as H0. pose proof (byte_val_range c1) as H1.
  pose proof (byte_val_range c2) as H2. pose proof (byte_val_range c3) as H3.
  pose proof (byte_val_range c4) as H4. pose proof (byte_val_range c5) as H5.
  pose proof (byte_val_range c6) as H6. pose proof (byte_val_range c7) as H7.
  set (low := byte_val c1 + 2 ^ 8 * byte_val c2 + 2 ^ 16 * byte_val c3
              + 2 ^ 24 * byte_val c4 + 2 ^ 32 * byte_val c5 + 2 ^ 40 * byte_val c6).
  assert (Hread : binary_Read_uint64
            (String c0 (String c1 (String c2 (String c3
              (String c4 (String c5 (String c6 (String c7 tail))))))))
          = Ok (byte_val c0 + 256 * (low + 2 ^ 48 * byte_val c7))).
  { rewrite binary_Read_uint64_full by (cbn [String.length]; lia).
    f_equal. unfold low. cbn [le_uint]. lia. }
  rewrite (getID_value w h a dev _ _ Hdev Hopen Hread). cbv zeta.
  rewrite (land_low_byte _ _ H0), (serial_bits _ _ H0).
  assert (Hid : (low + 2 ^ 48 * byte_val c7) mod 2 ^ 48 = low).
  { replace (low + 2 ^ 48 * byte_val c7) with (low + byte_val c7 * 2 ^ 48) by lia.
    rewrite Z.mod_add by lia. apply Z.mod_small. unfold low. lia. }
  rewrite Hid. destruct Hfamily as [Hf|Hf]; rewrite Hf; cbn [Z.eqb Pos.eqb].
  - eexists. split; [reflexivity|]. now repeat split.
  - eexists. split; [reflexivity|]. now repeat split.
Qed.

Lemma getID_serial_bytes_witness :
  exists dev',
    getID (host [] [(id_path "10-000000000102",
                     bytes [0x10; 0x02; 0x01; 0; 0; 0; 0; 0x77; 0xff])])
          (Some 0%nat) [sensor "10-000000000102"]
    = Return None (<[0%nat := dev']> [sensor "10-000000000102"])
    /\ ID dev' = 2 + 2 ^ 8 * 1 + 2 ^ 16 * 0 + 2 ^ 24 * 0 + 2 ^ 32 * 0 + 2 ^ 40 * 0.
Proof.
  destruct (getID_serial_bytes
              (host [] [(id_path "10-000000000102",
                         bytes [0x10; 0x02; 0x01; 0; 0; 0; 0; 0x77; 0xff])])
              [sensor "10-000000000102"] 0 (sensor "10-000000000102")
              (ascii_of_nat 0x10) (ascii_of_nat 2) (ascii_of_nat 1)
              (ascii_of_nat 0) (ascii_of_nat 0) (ascii_of_nat 0)
              (ascii_of_nat 0) (ascii_of_nat 0x77) (bytes [0xff])
              eq_refl eq_refl) as (dev' & Hget & Hid & _).
  - right. reflexivity.
  - exists dev'. split; [exact Hget|exact Hid].
Defined.

(** ** The scanner: line endings *)

Lemma LF_newline rest : LF +:+ rest = String (ascii_of_nat 10) rest.
Proof. reflexivity. Qed.

Lemma raw_lines_line x rest :
  string_forall is_dot x = true ->
  raw_lines (x +:+ LF +:+ rest) = x :: raw_lines rest.
Proof.
  intros Hx. induction x as [|c x IH].
  - rewrite app_empty, LF_newline. reflexivity.
  - cbn [string_forall] in Hx. apply andb_prop in Hx as [Hc Hx].
    rewrite app_cons. cbn [raw_lines].
    assert (Hnl : is_newline c = false).
    { unfold is_dot in Hc. fold (is_newline c) in Hc. now destruct (is_newline c). }
    now rewrite Hnl, (IH Hx).
Qed.

Lemma dropCR_app_CR x : dropCR (x +:+ CR) = x.
Proof.
  induction x as [|c x IH]; [reflexivity|].
  rewrite app_cons. cbn [dropCR]. rewrite IH.
  destruct (x +:+ CR) as [|c' s'] eqn:Hs; [|reflexivity].
  apply (f_equal String.length) in Hs. rewrite length_app in Hs.
  cbn in Hs. lia.
Qed.

Lemma scanner_tokens_join eolbody ls :
  eolbody = "" \/ eolbody = CR ->
  Forall plain_line ls ->
  scanner_tokens (join_lines (eolbody +:+ LF) ls) = ls.
Proof.
  intros Heol Hls. unfold scanner_tokens.
  induction Hls as [|l ls (Hdot & Hcr & Hlen) _ IH]; [reflexivity|].
  cbn [join_lines].
  replace (l +:+ (eolbody +:+ LF) +:+ join_lines (eolbody +:+ LF) ls)
    with ((l +:+ eolbody) +:+ LF +:+ join_lines (eolbody +:+ LF) ls)
    by (now rewrite !app_assoc_string).
  rewrite raw_lines_line.
  - cbn [scannable].
    assert (Hshort :
              (Z.of_nat (String.length (l +:+ eolbody)) <? MaxScanTokenSize) = true).
    { apply Z.ltb_lt. rewrite length_app.
      destruct Heol as [-> | ->]; cbn [String.length CR]; [lia|].
      change (String.length CR) with 1%nat. lia. }
    rewrite Hshort. cbn [fmap list_fmap]. f_equal; [|exact IH].
    destruct Heol as [-> | ->]; [|apply dropCR_app_CR].
    replace (l +:+ "") with l; [exact Hcr|].
    clear. induction l as [|c l IHl]; [reflexivity|]. now rewrite app_cons, <- IHl.
  - rewrite string_forall_app, Hdot. now destruct Heol as [-> | ->].
Qed.

(** X17. [ReadDevices] reads a status file line by line, and the lines
    may end in a line feed or in a carriage return and a line feed: in
    both cases the loop sees the lines of the text, without their
    endings. *)
Theorem ReadDevices_line_endings (w : World) (h : heap) (a : nat)
    (dev : DS1820) (eolbody : string) (ls : list string) :
  h !! a = Some dev ->
  eolbody = "" \/ eolbody = CR ->
  Forall plain_line ls ->
  open_file w (w1_slave_path (Name dev)) = Ok (join_lines (eolbody +:+ LF) ls) ->
  ReadDevices_body w (Some a) h = scan_loop (Some a) 0 ls h.
Proof.
  intros Hdev Heol Hls Hopen.
  rewrite (ReadDevices_body_tokens w a dev _ h Hdev Hopen).
  now rewrite scanner_tokens_join.
Qed.

Lemma ReadDevices_line_endings_witness :
  ReadDevices_body
    (host [] [(w1_slave_path "28-0000aabbcc",
               join_lines (CR +:+ LF)
                 ["23 01 4b 46 7f ff 0c 10 45 : crc=1a YES";
                  "23 01 4b 46 7f ff 0c 10 45 t=23562"])])
    (Some 0%nat) [sensor "28-0000aabbcc"]
  = Return None [set_LastTemp (celsius 23562) (sensor "28-0000aabbcc")].
Proof.
  rewrite (ReadDevices_line_endings _ _ 0 (sensor "28-0000aabbcc") CR
             ["23 01 4b 46 7f ff 0c 10 45 : crc=1a YES";
              "23 01 4b 46 7f ff 0c 10 45 t=23562"]).
  - reflexivity.
  - reflexivity.
  - now right.
  - repeat constructor; try reflexivity.
  - reflexivity.
Defined.
